(** * evrlink client: event bus, session lifecycle, confirmation polling

    A shallow embedding of the stateful parts of the client.

    Definitions
    - [Js]               the JavaScript notions the code relies on: thrown
                         values, truthiness, [toLowerCase], [split];
    - [DatabaseEvents]   the listener registry of [src/services/api.ts];
    - [Api]              [getAuthHeaders], [loginWithWallet],
                         [checkAuthState], [transferGiftCard] and
                         [claimGiftCard] of the same file;
    - [CreateBackground] the polling effect of the background-mint page;
    - [Config]           [getApiBaseUrl];
    - [Endpoints]        [getCurrentUser], [mintBackgroundNFT],
                         [verifyBackgroundStatus], [createGiftCard] and
                         [setGiftCardSecret];
    - [Scenarios]        concrete backends, stores and answers.

    Properties
    - [DatabaseEventsSpec], [ApiSpec], [CreateBackgroundSpec];
    - [DatabaseEventsProps], [ApiProps], [CreateBackgroundProps],
      [ConfigProps], [EndpointsProps].

    JavaScript values are modelled by the types the TypeScript signatures
    give them.  Effects are threaded explicitly: a call of the client runs
    over a world that carries the local storage, the state of the backend,
    the clock and the trace of the requests sent; a [throw] is a result of
    its own and keeps the state reached so far, as in the language.  The
    page is a state machine over the events of the event loop. *)

From Stdlib Require Import ZArith String Ascii List Bool Lia.
From stdpp Require Import base option list strings gmap.

Local Open Scope string_scope.
Local Open Scope list_scope.
Local Open Scope Z_scope.

(** ** JavaScript basics *)

Module Js.

(** A value thrown by [throw] / a rejected promise.  [new Error(msg)] has a
    message and no [response]; an axios rejection for a non-2xx answer
    carries the [response] (status and body), a transport failure does not. *)
Record ErrBody := { body_error : option string }.
Record ErrResponse := { err_status : Z; err_data : option ErrBody }.
Record Error := { message : option string; response : option ErrResponse }.

Definition new_Error (msg : string) : Error :=
  {| message := Some msg; response := None |}.

(** Truthiness of a possibly absent string ([null], [undefined] and the
    empty string are falsy). *)
Definition truthy (v : option string) : bool :=
  match v with
  | Some s => negb (String.eqb s "")
  | None => false
  end.

(** [v || dflt] on possibly absent strings. *)
Definition or_else (v : option string) (dflt : string) : string :=
  match v with
  | Some s => if String.eqb s "" then dflt else s
  | None => dflt
  end.

(** How a call completes: it returns a value or throws. *)
Inductive completion (A : Type) : Type :=
| Returns (a : A)
| Throws (e : Error).
Arguments Returns {A} a.
Arguments Throws {A} e.

Definition threw {A} (c : completion A) : bool :=
  match c with Throws _ => true | Returns _ => false end.

(** [String.prototype.toLowerCase] on ASCII strings, which is what a
    wallet address in hexadecimal is: the letters A to Z are lowered, every
    other byte is kept.  The model says nothing of cased letters outside
    ASCII, which the code lowers too. *)
Definition lower_ascii (c : ascii) : ascii :=
  let n := N_of_ascii c in
  if ((65 <=? n) && (n <=? 90))%N then ascii_of_N (n + 32) else c.

Fixpoint toLowerCase (s : string) : string :=
  match s with
  | EmptyString => EmptyString
  | String c s' => String (lower_ascii c) (toLowerCase s')
  end.

(** [s.split(sep)] for a one-character separator: never the empty list. *)
Fixpoint split_go (sep : ascii) (cur : string) (s : string) : list string :=
  match s with
  | EmptyString => [cur]
  | String c s' =>
      if Ascii.eqb c sep then cur :: split_go sep EmptyString s'
      else split_go sep (cur +:+ String c EmptyString) s'
  end.

Definition split (sep : ascii) (s : string) : list string :=
  split_go sep EmptyString s.

End Js.

(** ** The listener registry: [class DatabaseEvents] *)

Module DatabaseEvents.

Import Js.

(** A callback is a function object: what the registry stores and what
    [!==] compares is the reference to it. *)
Definition callback := nat.

Record listeners := {
  backgroundAdded : list callback;
  backgroundUpdated : list callback;
}.

Definition empty : listeners :=
  {| backgroundAdded := []; backgroundUpdated := [] |}.

(** [array.filter(cb => cb !== callback)] *)
Definition remove (c : callback) (l : list callback) : list callback :=
  List.filter (fun cb => negb (Nat.eqb cb c)) l.

(** [offBackgroundAdded] / [offBackgroundUpdated] *)
Definition offBackgroundAdded (c : callback) (ls : listeners) : listeners :=
  {| backgroundAdded := remove c (backgroundAdded ls);
     backgroundUpdated := backgroundUpdated ls |}.

Definition offBackgroundUpdated (c : callback) (ls : listeners) : listeners :=
  {| backgroundAdded := backgroundAdded ls;
     backgroundUpdated := remove c (backgroundUpdated ls) |}.

(** [onBackgroundAdded] / [onBackgroundUpdated]: push, and hand back the
    closure [() => this.offBackground...(callback)]. *)
Definition onBackgroundAdded (c : callback) (ls : listeners)
  : listeners * (listeners -> listeners) :=
  ({| backgroundAdded := backgroundAdded ls ++ [c];
      backgroundUpdated := backgroundUpdated ls |},
   offBackgroundAdded c).

Definition onBackgroundUpdated (c : callback) (ls : listeners)
  : listeners * (listeners -> listeners) :=
  ({| backgroundAdded := backgroundAdded ls;
      backgroundUpdated := backgroundUpdated ls ++ [c] |},
   offBackgroundUpdated c).

Section Emit.

(** The payload type, the state the callbacks act on, and the function
    each reference denotes.  The callbacks do not reach the registry: an
    emit iterates over the list as it is when the emit starts, which is
    what [forEach] does when a callback subscribes ([push] beyond the
    length read at the start) or unsubscribes (a new array replaces the
    one iterated). *)
Context {Background W : Type}.
Variable call : callback -> Background -> W -> completion unit * W.

(** What one emit did: how it completed, the state it left, and the
    callbacks it invoked, in order. *)
Record emitted := {
  outcome : completion unit;
  world : W;
  invoked : list callback;
}.

(** [array.forEach((callback) => callback(background))]: no handler
    around the call, so the first throw ends the loop. *)
Fixpoint forEach (l : list callback) (b : Background) (w : W)
                 (seen : list callback) : emitted :=
  match l with
  | [] => {| outcome := Returns tt; world := w; invoked := seen |}
  | c :: l' =>
      match call c b w with
      | (Returns _, w') => forEach l' b w' (seen ++ [c])
      | (Throws e, w') =>
          {| outcome := Throws e; world := w'; invoked := seen ++ [c] |}
      end
  end.

Definition emitBackgroundAdded (b : Background) (ls : listeners) (w : W)
  : emitted :=
  forEach (backgroundAdded ls) b w [].

Definition emitBackgroundUpdated (b : Background) (ls : listeners) (w : W)
  : emitted :=
  forEach (backgroundUpdated ls) b w [].

End Emit.

End DatabaseEvents.


(** ** The REST client: [src/services/api.ts] *)

Module Api.

Import Js.

(** *** The environment

    The model keeps what the calls read and write: the local storage, the
    answers of the backend, the clock.  Logging ([authLog], [apiLog],
    [console]) is left out; the storage operations are taken not to throw;
    [payload.exp] is an integer number of seconds. *)

(** [window.localStorage] through the Web Storage interface. *)
Class Storage (Store : Type) := {
  getItem : string -> Store -> option string;
  setItem : string -> string -> Store -> Store;
  removeItem : string -> Store -> Store;
}.

(** A store that keeps what it is given. *)
Class LawfulStorage (Store : Type) `{Storage Store} : Prop := {
  getItem_setItem_eq k v st : getItem k (setItem k v st) = Some v;
  getItem_setItem_ne k k' v st :
    k <> k' -> getItem k' (setItem k v st) = getItem k' st;
  getItem_removeItem_eq k st : getItem k (removeItem k st) = None;
}.

#[export] Instance gmap_storage : Storage (gmap string string) := {|
  getItem k st := st !! k;
  setItem k v st := <[k:=v]> st;
  removeItem k st := delete k st;
|}.

(** A store whose writes are lost without an error. *)
Definition readonly_storage : Storage (gmap string string) := {|
  getItem k st := st !! k;
  setItem _ _ st := st;
  removeItem _ st := st;
|}.

(** Response bodies, as far as the client reads them. *)
Record LoginData := {
  token : option string;      (* response.data.token *)
  user : option string;       (* response.data.user, opaque *)
}.

Record MeData := {
  me_user : bool;                    (* response.data.user is truthy *)
  me_walletAddress : option string;  (* response.data.walletAddress *)
}.

(** How an axios call settles: resolved with [response.data], or rejected.
    [Resolved None] is a body that is the JSON [null]; an empty body, for
    which axios gives the empty string, is a value of [D] where [D] has one
    (see [claimGiftCard]). *)
Inductive settled (D : Type) : Type :=
| Resolved (data : option D)
| Rejected (e : Error).
Arguments Resolved {D} data.
Arguments Rejected {D} e.

Abbreviation headers := (gmap string string).

(** The requests the client puts on the wire. *)
Inductive request : Type :=
| PostLogin (address signature : string)
| GetMe (h : headers)
| PostTransfer (giftCardId recipientAddress : string) (h : headers)
| PostClaim (giftCardId secret : string) (h : headers).

Definition is_probe (r : request) : bool :=
  match r with GetMe _ => true | _ => false end.

Definition is_login (r : request) : bool :=
  match r with PostLogin _ _ => true | _ => false end.

Definition count_probes (rs : list request) : nat :=
  length (List.filter is_probe rs).

Definition count_logins (rs : list request) : nat :=
  length (List.filter is_login rs).

(** The backend, one handler per endpoint, over a state [N] of its own.
    [Json] is the type of the bodies the client hands on unread. *)
Record Server (N Json : Type) := {
  post_login : string -> string -> N -> settled LoginData * N;
  get_me : headers -> N -> settled MeData * N;
  post_transfer : string -> string -> headers -> N -> settled Json * N;
  post_claim : string -> string -> headers -> N -> settled (option Json) * N;
}.
Arguments post_login {N Json} _ _ _ _.
Arguments get_me {N Json} _ _ _.
Arguments post_transfer {N Json} _ _ _ _ _.
Arguments post_claim {N Json} _ _ _ _ _.

(** What a call of the client can see and change: the local storage, the
    backend, the clock ([new Date()], in milliseconds), and the requests
    issued so far, oldest first. *)
Record World (Store N : Type) := {
  storage : Store;
  remote : N;
  clock : Z;
  requests : list request;
}.
Arguments storage {Store N} _.
Arguments remote {Store N} _.
Arguments clock {Store N} _.
Arguments requests {Store N} _.

(** The decoded claims of a token: [payload.exp], in seconds, when the
    payload has one. *)
Record Claims := { exp : option Z }.

Record AuthStatus := { isAuthenticated : bool; message : string }.

(** What [claimGiftCard] hands back: [{ success, data }] or
    [{ success, error }]. *)
Record OpResult (Json : Type) := {
  success : bool;
  data : option Json;
  error : option string;
}.
Arguments success {Json} _.
Arguments data {Json} _.
Arguments error {Json} _.

(** The three ways the local part of [checkAuthState] goes. *)
Inductive SessionState : Type :=
| Unauthenticated
| Valid
| ExpiringSoon.

(** [new Date(v).getTime()]: the time value, or NaN ([None]) outside the
    range of a Date. *)
Definition Date_getTime (v : Z) : option Z :=
  if Z.abs v <=? 8640000000000000 then Some v else None.

(** [expiryDate.getTime() - now.getTime() < 10 * 60 * 1000]; a comparison
    with NaN is false. *)
Definition expires_within_10min (expiry : option Z) (now : Z) : bool :=
  match expiry with
  | Some t => t - now <? 10 * 60 * 1000
  | None => false
  end.

Section Client.

Context {Store : Type} `{!Storage Store} {N Json : Type}.

(** The backend, and [JSON.parse(atob(segment))] with the read of [.exp]
    on its result (each of the three may throw). *)
Variable srv : Server N Json.
Variable decodeClaims : string -> completion Claims.

(** *** Calls that return or throw, over the world *)

Definition M (A : Type) : Type :=
  World Store N -> completion A * World Store N.

Definition ret {A} (a : A) : M A := fun w => (Returns a, w).

Definition throw {A} (e : Error) : M A := fun w => (Throws e, w).

Definition bind {A B} (m : M A) (k : A -> M B) : M B :=
  fun w =>
    match m w with
    | (Returns a, w') => k a w'
    | (Throws e, w') => (Throws e, w')
    end.

(** [try { body } catch (error) { handler }] *)
Definition try_catch {A} (body : M A) (handler : Error -> M A) : M A :=
  fun w =>
    match body w with
    | (Returns a, w') => (Returns a, w')
    | (Throws e, w') => handler e w'
    end.

Notation "x <- m ;; k" := (bind m (fun x => k))
  (at level 100, m at next level, right associativity).
Notation "m ;;; k" := (bind m (fun _ => k))
  (at level 100, right associativity).

Definition localStorage_getItem (k : string) : M (option string) :=
  fun w => (Returns (getItem k (storage w)), w).

Definition localStorage_setItem (k v : string) : M unit :=
  fun w =>
    (Returns tt,
     {| storage := setItem k v (storage w); remote := remote w;
        clock := clock w; requests := requests w |}).

Definition localStorage_removeItem (k : string) : M unit :=
  fun w =>
    (Returns tt,
     {| storage := removeItem k (storage w); remote := remote w;
        clock := clock w; requests := requests w |}).

Definition Date_now : M Z := fun w => (Returns (clock w), w).

(** The world once a request has been sent and answered. *)
Definition answered (r : request) (n' : N) (w : World Store N)
  : World Store N :=
  {| storage := storage w; remote := n'; clock := clock w;
     requests := requests w ++ [r] |}.

(** An axios call: the request goes on the wire, the backend answers, and
    the promise resolves with [response.data] or rejects. *)
Definition axios {D} (r : request) (handler : N -> settled D * N)
  : M (option D) :=
  fun w =>
    let (answer, n') := handler (remote w) in
    match answer with
    | Resolved d => (Returns d, answered r n' w)
    | Rejected e => (Throws e, answered r n' w)
    end.

(** *** [getToken], [getAuthHeaders] *)

Definition getToken : M (option string) :=
  try_catch
    (token <- localStorage_getItem "token" ;;
     if negb (truthy token) then ret None else ret token)
    (fun _ => ret None).

Definition getAuthHeaders : M headers :=
  token <- getToken ;;
  let h : headers := {[ "Content-Type" := "application/json" ]} in
  (* if (token) *)
  match token with
  | Some t =>
      if truthy (Some t) then ret (<[ "Authorization" := "Bearer " +:+ t ]> h)
      else ret h
  | None => ret h
  end.

(** *** [loginWithWallet] *)

Definition missing_token : Error :=
  new_Error "Authentication failed: server response missing token".

Definition loginWithWallet (walletAddress signature : string) : M LoginData :=
  try_catch
    (let normalizedAddress := toLowerCase walletAddress in
     response_data <-
       axios (PostLogin normalizedAddress signature)
             (post_login srv normalizedAddress signature) ;;
     (* if (!response.data || !response.data.token) *)
     match response_data with
     | None => throw missing_token
     | Some d =>
         match token d with
         | None => throw missing_token
         | Some tok =>
             if negb (truthy (Some tok)) then throw missing_token
             else
               localStorage_setItem "token" tok ;;;
               localStorage_setItem "walletAddress" walletAddress ;;;
               storedToken <- localStorage_getItem "token" ;;
               if negb (bool_decide (storedToken = Some tok)) then
                 throw (new_Error "Failed to store authentication token")
               else ret d
         end
     end)
    (fun error =>
       let generic :=
         throw (new_Error ("Failed to login with wallet: "
                           +:+ or_else (Js.message error) "Unknown error")) in
       match Js.response error with
       | Some r =>
           match err_data r with
           | Some b =>
               if truthy (body_error b) then
                 throw (new_Error ("Login failed: "
                                   +:+ or_else (body_error b) ""))
               else generic
           | None => generic
           end
       | None => generic
       end).

(** *** [logout] *)

Definition logout : M unit :=
  localStorage_removeItem "token" ;;;
  localStorage_removeItem "walletAddress".

(** *** [checkAuthState] *)

Definition not_authenticated : AuthStatus :=
  {| isAuthenticated := false;
     message := "Not authenticated - please connect your wallet" |}.

Definition refreshed : AuthStatus :=
  {| isAuthenticated := true;
     message := "Authentication refreshed successfully" |}.

Definition mock_signature (walletAddress : string) : string :=
  "mock_signature_for_" +:+ walletAddress.

(** The block that decodes the token and re-authenticates when it is about
    to expire.  [Some status] is the [return status] inside the block,
    [None] is falling out of it (also through its [catch]). *)
Definition refreshIfExpiring (token walletAddress : string)
  : M (option AuthStatus) :=
  try_catch
    (let parts := split "." token in
     if (length parts =? 3)%nat then
       match decodeClaims (nth 1 parts "") with
       | Throws e => throw e
       | Returns payload =>
           (* if (payload.exp): absent and zero are falsy *)
           match exp payload with
           | None => ret None
           | Some e =>
               if e =? 0 then ret None
               else
                 let expiryDate := Date_getTime (e * 1000) in
                 now <- Date_now ;;
                 if expires_within_10min expiryDate now then
                   response <-
                     loginWithWallet walletAddress
                                     (mock_signature walletAddress) ;;
                   if truthy (Api.token response) then ret (Some refreshed)
                   else
                     ret (Some {| isAuthenticated := false;
                                  message := "Failed to refresh authentication" |})
                 else ret None
           end
       end
     else ret None)
    (fun decodeError => ret None).

(** [error.response && error.response.status === 401] *)
Definition is_401 (e : Error) : bool :=
  match Js.response e with
  | Some r => err_status r =? 401
  | None => false
  end.

(** What the validation reports for a test request that was rejected. *)
Definition validation_failed (error : Error) : AuthStatus :=
  {| isAuthenticated := false;
     message := "Authentication validation failed: "
                +:+ or_else (Js.message error) "Unknown error" |}.

(** What it reports for the body of a test request that was answered:
    [response.data && (response.data.user || response.data.walletAddress)]. *)
Definition validation_of (body : option MeData) : AuthStatus :=
  match body with
  | Some d =>
      if me_user d || truthy (me_walletAddress d) then
        {| isAuthenticated := true;
           message := "Authentication validated successfully" |}
      else
        {| isAuthenticated := false;
           message := "Authentication validation failed" |}
  | None =>
      {| isAuthenticated := false;
         message := "Authentication validation failed" |}
  end.

(** The block that validates the session with a test request. *)
Definition validateRemotely (walletAddress : string) : M AuthStatus :=
  try_catch
    (h <- getAuthHeaders ;;
     response_data <- axios (GetMe h) (get_me srv h) ;;
     ret (validation_of response_data))
    (fun error =>
       early <-
         (if is_401 error then
            try_catch
              (refreshResponse <-
                 loginWithWallet walletAddress (mock_signature walletAddress) ;;
               if truthy (Api.token refreshResponse) then ret (Some refreshed)
               else ret None)
              (fun refreshError => ret None)
          else ret None) ;;
       match early with
       | Some status => ret status
       | None => ret (validation_failed error)
       end).

Definition checkAuthState : M AuthStatus :=
  try_catch
    (token <- localStorage_getItem "token" ;;
     walletAddress <- localStorage_getItem "walletAddress" ;;
     (* if (!token || !walletAddress) *)
     match token, walletAddress with
     | Some t, Some a =>
         if negb (truthy (Some t)) || negb (truthy (Some a)) then
           ret not_authenticated
         else
           early <- refreshIfExpiring t a ;;
           match early with
           | Some status => ret status
           | None => validateRemotely a
           end
     | _, _ => ret not_authenticated
     end)
    (fun error =>
       ret {| isAuthenticated := false;
              message := "Authentication check failed: "
                         +:+ or_else (Js.message error) "Unknown error" |}).

(** The decision [checkAuthState] takes before its first request, read off
    its guards: the store and the clock alone determine it. *)
Definition evaluate (st : Store) (now : Z) : SessionState :=
  match getItem "token" st, getItem "walletAddress" st with
  | Some t, Some a =>
      if negb (truthy (Some t)) || negb (truthy (Some a)) then Unauthenticated
      else
        let parts := split "." t in
        if (length parts =? 3)%nat then
          match decodeClaims (nth 1 parts "") with
          | Throws _ => Valid
          | Returns payload =>
              match exp payload with
              | None => Valid
              | Some e =>
                  if e =? 0 then Valid
                  else if expires_within_10min (Date_getTime (e * 1000)) now
                       then ExpiringSoon
                       else Valid
              end
          end
        else Valid
  | _, _ => Unauthenticated
  end.

(** The headers [getAuthHeaders] builds over a given store. *)
Definition auth_headers (st : Store) : headers :=
  let h : headers := {[ "Content-Type" := "application/json" ]} in
  match getItem "token" st with
  | Some t => if truthy (Some t) then <[ "Authorization" := "Bearer " +:+ t ]> h
              else h
  | None => h
  end.

(** *** Gift cards: [transferGiftCard], [claimGiftCard] *)

(** [error.response?.data?.error] *)
Definition response_error (e : Error) : option string :=
  match Js.response e with
  | Some r =>
      match err_data r with
      | Some b => body_error b
      | None => None
      end
  | None => None
  end.

Definition transferGiftCard (giftCardId recipientAddress : string)
  : M (option Json) :=
  try_catch
    (h <- getAuthHeaders ;;
     axios (PostTransfer giftCardId recipientAddress h)
           (post_transfer srv giftCardId recipientAddress h))
    (fun error => throw (new_Error "Failed to transfer gift card")).

Definition claimGiftCard (giftCardId secret : string) : M (OpResult Json) :=
  try_catch
    (h <- getAuthHeaders ;;
     response_data <-
       axios (PostClaim giftCardId secret h)
             (post_claim srv giftCardId secret h) ;;
     match response_data with
     | Some d =>
         (* d is response.data.data; it is absent for a body without that
            field and for an empty body (the empty string has no .data) *)
         ret {| success := true; data := d; error := None |}
     | None =>
         (* response.data is null: reading .data of it throws *)
         throw (new_Error "Cannot read properties of null")
     end)
    (fun error =>
       ret {| success := false;
              data := None;
              error := Some (or_else (response_error error)
                                     "Failed to claim gift card") |}).

End Client.

(** Opens the sequencing of calls, for proofs that follow a call step by
    step. *)
Ltac open_calls :=
  unfold try_catch, bind, axios, throw, ret, localStorage_setItem,
    localStorage_getItem, localStorage_removeItem, Date_now.

End Api.

(** ** The mint page: the polling effect of [CreateBackground] *)

Module CreateBackground.

Import Js.

(** What [verifyBackgroundStatus] resolves to. *)
Record BackgroundInfo := {
  blockchainId : option string;
  transactionHash : option string;
}.

Record StatusResponse := {
  status : string;
  background : option BackgroundInfo;   (* response.background *)
}.

Inductive toast : Type :=
| Minted (b : BackgroundInfo)     (* toast.success(... minted on blockchain ...) *)
| TransactionFailed.              (* toast.error("Transaction failed ...") *)

(** The component between two events of the event loop.  [interval] is the
    live interval timer, with the id its callback closed over; [inflight]
    lists the [checkBackgroundStatus] calls suspended at their [await],
    oldest first, each with the id it was called with. *)
Record Page := {
  mounted : bool;
  pendingBackgroundId : option Z;
  interval : option Z;
  inflight : list Z;
  toasts : list toast;
}.

Definition initial : Page :=
  {| mounted := true; pendingBackgroundId := None; interval := None;
     inflight := []; toasts := [] |}.

(** [if (pendingBackgroundId)]: [null] and [0] are falsy. *)
Definition truthy_id (v : option Z) : bool :=
  match v with
  | Some n => negb (n =? 0)
  | None => false
  end.

(** [checkBackgroundStatus(id)] up to its [await]: the status request is
    on its way. *)
Definition checkBackgroundStatus_call (id : Z) (p : Page) : Page :=
  {| mounted := mounted p; pendingBackgroundId := pendingBackgroundId p;
     interval := interval p; inflight := inflight p ++ [id];
     toasts := toasts p |}.

(** The function the effect returns: [if (intervalId) clearInterval(intervalId)]. *)
Definition cleanup (p : Page) : Page :=
  {| mounted := mounted p; pendingBackgroundId := pendingBackgroundId p;
     interval := None; inflight := inflight p; toasts := toasts p |}.

(** The body of the effect: an initial check, then a check every 10 s. *)
Definition effect (p : Page) : Page :=
  match pendingBackgroundId p with
  | Some id =>
      if truthy_id (Some id) then
        let p' := checkBackgroundStatus_call id p in
        {| mounted := mounted p'; pendingBackgroundId := pendingBackgroundId p';
           interval := Some id; inflight := inflight p'; toasts := toasts p' |}
      else p
  | None => p
  end.

(** [setPendingBackgroundId(v)]: ignored once the component is unmounted or
    when the state already holds [v]; otherwise the state changes and, the
    effect depending on it, the previous effect is cleaned up and the
    effect runs again. *)
Definition setPendingBackgroundId (v : option Z) (p : Page) : Page :=
  if negb (mounted p) then p
  else if bool_decide (v = pendingBackgroundId p) then p
  else
    effect (cleanup {| mounted := mounted p; pendingBackgroundId := v;
                       interval := interval p; inflight := inflight p;
                       toasts := toasts p |}).

(** The interval fires. *)
Definition tick (p : Page) : Page :=
  match interval p with
  | Some id => checkBackgroundStatus_call id p
  | None => p
  end.

(** The component is unmounted: the effect is cleaned up. *)
Definition unmount (p : Page) : Page :=
  let p' := cleanup p in
  {| mounted := false; pendingBackgroundId := pendingBackgroundId p';
     interval := interval p'; inflight := inflight p'; toasts := toasts p' |}.

Definition publish (t : toast) (p : Page) : Page :=
  {| mounted := mounted p; pendingBackgroundId := pendingBackgroundId p;
     interval := interval p; inflight := inflight p;
     toasts := toasts p ++ [t] |}.

(** [response.status === "confirmed" && response.background.blockchainId]:
    reading [blockchainId] of an absent [background] throws. *)
Definition confirmed (r : StatusResponse) : completion bool :=
  if String.eqb (status r) "confirmed" then
    match background r with
    | Some b => Returns (truthy (blockchainId b))
    | None => Throws (new_Error "Cannot read properties of undefined")
    end
  else Returns false.

(** [checkBackgroundStatus] from its [await] on, given how
    [verifyBackgroundStatus] settled. *)
Definition checkBackgroundStatus_resume (r : completion StatusResponse)
                                        (p : Page) : Page :=
  match r with
  | Throws _ => p                       (* catch: console.error *)
  | Returns response =>
      match confirmed response, background response with
      | Returns true, Some b =>
          setPendingBackgroundId None (publish (Minted b) p)
      | Returns true, None => p           (* not reached *)
      | Returns false, _ =>
          if String.eqb (status response) "failed" then
            setPendingBackgroundId None (publish TransactionFailed p)
          else p
      | Throws _, _ => p                  (* catch: console.error *)
      end
  end.

(** The [i]-th suspended check gets its answer. *)
Definition settle (i : nat) (r : completion StatusResponse) (p : Page) : Page :=
  match inflight p !! i with
  | Some _ =>
      checkBackgroundStatus_resume r
        {| mounted := mounted p; pendingBackgroundId := pendingBackgroundId p;
           interval := interval p; inflight := delete i (inflight p);
           toasts := toasts p |}
  | None => p
  end.

Inductive event : Type :=
| SetPending (v : option Z)
| Tick
| Settle (i : nat) (r : completion StatusResponse)
| Unmount.

Definition step (p : Page) (e : event) : Page :=
  match e with
  | SetPending v => setPendingBackgroundId v p
  | Tick => tick p
  | Settle i r => settle i r p
  | Unmount => unmount p
  end.

Definition run (es : list event) (p : Page) : Page := fold_left step es p.

(** A live interval belongs to a mounted page and polls its pending id. *)
Definition timer_owned (p : Page) : Prop :=
  forall id, interval p = Some id ->
             mounted p = true /\ pendingBackgroundId p = Some id.

End CreateBackground.

(** ** The base URL: [getApiBaseUrl] *)

Module Config.

Import Js.

(** [import.meta.env], as far as it is read. *)
Record Env := {
  MODE : string;
  VITE_API_URL : option string;
}.

(** [s.endsWith(c)] for a one-character suffix. *)
Fixpoint endsWith (c : ascii) (s : string) : bool :=
  match s with
  | EmptyString => false
  | String x EmptyString => Ascii.eqb x c
  | String _ s' => endsWith c s'
  end.

(** [s.slice(0, -1)]: all but the last character. *)
Fixpoint slice_0_m1 (s : string) : string :=
  match s with
  | EmptyString => EmptyString
  | String _ EmptyString => EmptyString
  | String x s' => String x (slice_0_m1 s')
  end.

Definition default_url : string := "https://api.evrlink.com".

Definition getApiBaseUrl (env : Env) : string :=
  if String.eqb (MODE env) "development" then ""
  else
    (* if (!baseUrl) baseUrl = default *)
    let baseUrl := or_else (VITE_API_URL env) default_url in
    if endsWith "/" baseUrl then slice_0_m1 baseUrl else baseUrl.

End Config.

(** ** More of the REST client: the current user, backgrounds, gift cards *)

Module Endpoints.

Import Js.

(** *** [getCurrentUser], over the world of [Api] *)

(** [response.data.user || response.data]: the [user] field of the body
    when it is truthy, the body otherwise. *)
Inductive CurrentUser : Type :=
| UserOf (body : Api.MeData)
| WholeBody (body : Api.MeData).

Section CurrentUser.

Context {Store : Type} `{!Api.Storage Store} {N Json : Type}.
Variable srv : Api.Server N Json.

(** A rejected request, and a null body (reading [user] of it throws),
    both end in the [catch], which returns [null]. *)
Definition getCurrentUser : Api.M (Store := Store) (N := N)
                                  (option CurrentUser) :=
  Api.try_catch
    (Api.bind Api.getAuthHeaders (fun h =>
     Api.bind (Api.axios (Api.GetMe h) (Api.get_me srv h))
       (fun response_data =>
          match response_data with
          | Some d =>
              Api.ret (Some (if Api.me_user d then UserOf d else WholeBody d))
          | None => Api.throw (new_Error "Cannot read properties of null")
          end)))
    (fun error => Api.ret None).

End CurrentUser.

(** *** Endpoints outside the session: their requests and their backend *)

Inductive request : Type :=
| PostMint (image category price artistAddress : string) (h : Api.headers)
| GetVerify (id : string) (h : Api.headers)
| PostCreateGiftCard (backgroundId price message : string) (h : Api.headers)
| PostSetSecret (giftCardId secret : string) (h : Api.headers).

(** The body of a mint answer: [response.data.success] as a truth value,
    and the body itself, which the client hands on unread. *)
Record MintData (Json : Type) := {
  mint_success : bool;
  mint_body : Json;
}.
Arguments mint_success {Json} _.
Arguments mint_body {Json} _.

Record Backend (N Json : Type) := {
  post_mint : string -> string -> string -> string -> Api.headers -> N ->
              Api.settled (MintData Json) * N;
  get_verify : string -> Api.headers -> N ->
               Api.settled CreateBackground.StatusResponse * N;
  post_create : string -> string -> string -> Api.headers -> N ->
                Api.settled Json * N;
  post_set_secret : string -> string -> Api.headers -> N ->
                    Api.settled Json * N;
}.
Arguments post_mint {N Json} _ _ _ _ _ _ _.
Arguments get_verify {N Json} _ _ _ _.
Arguments post_create {N Json} _ _ _ _ _ _.
Arguments post_set_secret {N Json} _ _ _ _ _.

(** The world of [Api] together with the requests sent to these
    endpoints, oldest first. *)
Record State (Store N : Type) := {
  core : Api.World Store N;
  sent : list request;
}.
Arguments core {Store N} _.
Arguments sent {Store N} _.

Section Calls.

Context {Store : Type} `{!Api.Storage Store} {N Json : Type}.
Variable backend : Backend N Json.

(** [eventBus.emitBackgroundUpdated], of the module [./eventBus]: whether
    the emit for a mint answer returns or throws. *)
Variable emitBackgroundUpdated : MintData Json -> completion unit.

Definition M (A : Type) : Type :=
  State Store N -> completion A * State Store N.

Definition ret {A} (a : A) : M A := fun s => (Returns a, s).

Definition throw {A} (e : Error) : M A := fun s => (Throws e, s).

Definition bind {A B} (m : M A) (k : A -> M B) : M B :=
  fun s =>
    match m s with
    | (Returns a, s') => k a s'
    | (Throws e, s') => (Throws e, s')
    end.

Definition try_catch {A} (body : M A) (handler : Error -> M A) : M A :=
  fun s =>
    match body s with
    | (Returns a, s') => (Returns a, s')
    | (Throws e, s') => handler e s'
    end.

Notation "x <- m ;; k" := (bind m (fun x => k))
  (at level 100, m at next level, right associativity).
Notation "m ;;; k" := (bind m (fun _ => k))
  (at level 100, right associativity).

(** A call of [Api], run on the [core] of the state. *)
Definition lift {A} (m : Api.M A) : M A :=
  fun s =>
    let (r, w') := m (core s) in
    (r, {| core := w'; sent := sent s |}).

Definition of_completion {A} (c : completion A) : M A :=
  fun s => (c, s).

(** An axios call to one of these endpoints. *)
Definition axios {D} (r : request) (handler : N -> Api.settled D * N)
  : M (option D) :=
  fun s =>
    let (answer, n') := handler (Api.remote (core s)) in
    let s' := {| core := {| Api.storage := Api.storage (core s);
                            Api.remote := n';
                            Api.clock := Api.clock (core s);
                            Api.requests := Api.requests (core s) |};
                 sent := sent s ++ [r] |} in
    match answer with
    | Api.Resolved d => (Returns d, s')
    | Api.Rejected e => (Throws e, s')
    end.

(** *** [mintBackgroundNFT] *)

(** [{ ...getAuthHeaders(), "Content-Type": "multipart/form-data" }] *)
Definition multipart (h : Api.headers) : Api.headers :=
  <[ "Content-Type" := "multipart/form-data" ]> h.

Definition mintBackgroundNFT (image category price : string)
  : M (option (MintData Json)) :=
  try_catch
    (token <- lift Api.getToken ;;
     if negb (truthy token) then
       throw (new_Error "Authentication required - please login first")
     else
       walletAddress <- lift (Api.localStorage_getItem "walletAddress") ;;
       match walletAddress with
       | None =>
           throw (new_Error
                    "No wallet address found - please connect your wallet")
       | Some a =>
           if negb (truthy (Some a)) then
             throw (new_Error
                      "No wallet address found - please connect your wallet")
           else
             h <- lift Api.getAuthHeaders ;;
             response_data <-
               axios (PostMint image category price a (multipart h))
                     (post_mint backend image category price a (multipart h)) ;;
             (* if (response.data && response.data.success) *)
             match response_data with
             | Some d =>
                 (if mint_success d
                  then of_completion (emitBackgroundUpdated d)
                  else ret tt) ;;;
                 ret (Some d)
             | None => ret None
             end
       end)
    (fun error =>
       if Api.is_401 error then
         throw (new_Error "Authentication failed - please login again")
       else
         match Api.response_error error with
         | Some msg =>
             if truthy (Some msg) then throw (new_Error msg)
             else throw (new_Error "Failed to mint background NFT")
         | None => throw (new_Error "Failed to mint background NFT")
         end).

(** *** [verifyBackgroundStatus] *)

Definition verifyBackgroundStatus (backgroundId : string)
  : M (option CreateBackground.StatusResponse) :=
  try_catch
    (h <- lift Api.getAuthHeaders ;;
     axios (GetVerify backgroundId h) (get_verify backend backgroundId h))
    (fun error => throw (new_Error "Failed to verify background status")).

(** What [checkBackgroundStatus] resumes with once
    [verifyBackgroundStatus] has settled: reading [status] of a null body
    throws. *)
Definition status_answer
    (r : completion (option CreateBackground.StatusResponse))
  : completion CreateBackground.StatusResponse :=
  match r with
  | Returns (Some response) => Returns response
  | Returns None => Throws (new_Error "Cannot read properties of null")
  | Throws e => Throws e
  end.

(** *** [createGiftCard], [setGiftCardSecret] *)

(** [{ Authorization: `Bearer ${localStorage.getItem("token")}` }]: an
    absent token is spelled "null". *)
Definition bearer_of_stored (token : option string) : Api.headers :=
  {[ "Authorization" :=
       "Bearer " +:+ match token with Some t => t | None => "null" end ]}.

Definition createGiftCard (backgroundId price message : string)
  : M (Api.OpResult Json) :=
  try_catch
    (token <- lift (Api.localStorage_getItem "token") ;;
     let h := bearer_of_stored token in
     response_data <-
       axios (PostCreateGiftCard backgroundId price message h)
             (post_create backend backgroundId price message h) ;;
     ret {| Api.success := true; Api.data := response_data;
            Api.error := None |})
    (fun error =>
       ret {| Api.success := false; Api.data := None;
              Api.error := Some (or_else (Api.response_error error)
                                         "Failed to create gift card") |}).

Definition setGiftCardSecret (giftCardId secret : string)
  : M (Api.OpResult Json) :=
  try_catch
    (token <- lift (Api.localStorage_getItem "token") ;;
     let h := bearer_of_stored token in
     response_data <-
       axios (PostSetSecret giftCardId secret h)
             (post_set_secret backend giftCardId secret h) ;;
     ret {| Api.success := true; Api.data := response_data;
            Api.error := None |})
    (fun error =>
       ret {| Api.success := false; Api.data := None;
              Api.error := Some (or_else (Api.response_error error)
                                         "Failed to set gift card secret") |}).

End Calls.

Ltac open_calls :=
  unfold try_catch, bind, axios, throw, ret, lift, of_completion.

End Endpoints.

(** ** Concrete environments used in the examples below *)

Module Scenarios.

Import Js.

(** Callbacks over a log of the references that ran to completion:
    callback [0] throws, every other one appends itself to the log. *)
Definition boom : Error := new_Error "handler failed".

Definition logging_calls (c : DatabaseEvents.callback) (_ : unit)
                         (log : list nat) : completion unit * list nat :=
  if Nat.eqb c 0 then (Throws boom, log) else (Returns tt, log ++ [c]).

(** A backend that gives the same answer to every call of an endpoint. *)
Definition server (login : Api.settled Api.LoginData)
                  (me : Api.settled Api.MeData)
                  (transfer : Api.settled string)
                  (claim : Api.settled (option string))
  : Api.Server unit string :=
  {| Api.post_login := fun _ _ n => (login, n);
     Api.get_me := fun _ n => (me, n);
     Api.post_transfer := fun _ _ _ n => (transfer, n);
     Api.post_claim := fun _ _ _ n => (claim, n) |}.

(** Rejections: an HTTP error with a status and an [error] field in its
    body, and a transport failure. *)
Definition http_error (status : Z) (msg : string) : Error :=
  {| message := Some "Request failed";
     response := Some {| err_status := status;
                         err_data := Some {| body_error := Some msg |} |} |}.

Definition network_error : Error :=
  {| message := Some "Network Error"; response := None |}.

Definition unreachable {D} : Api.settled D := Api.Rejected network_error.

Definition login_ok (tok : string) : Api.settled Api.LoginData :=
  Api.Resolved (Some {| Api.token := Some tok; Api.user := Some "user" |}).

Definition login_without_token : Api.settled Api.LoginData :=
  Api.Resolved (Some {| Api.token := None; Api.user := Some "user" |}).

Definition me_ok : Api.settled Api.MeData :=
  Api.Resolved (Some {| Api.me_user := true; Api.me_walletAddress := None |}).

(** [JSON.parse(atob(segment))] on the segments the examples use (the
    comment gives the decoded text); any other segment is taken to throw. *)
Definition decodeClaims (segment : string) : completion Api.Claims :=
  if String.eqb segment "eyJleHAiOjB9" then                 (* {"exp":0} *)
    Returns {| Api.exp := Some 0 |}
  else if String.eqb segment "eyJleHAiOjE3MDAwMDA1NDB9" then  (* {"exp":1700000540} *)
    Returns {| Api.exp := Some 1700000540 |}
  else if String.eqb segment "eyJleHAiOjE3MDAwMDA2MDB9" then  (* {"exp":1700000600} *)
    Returns {| Api.exp := Some 1700000600 |}
  else if String.eqb segment "eyJleHAiOjE3MDAwMDA2NjB9" then  (* {"exp":1700000660} *)
    Returns {| Api.exp := Some 1700000660 |}
  else if String.eqb segment "eyJleHAiOi05MDAwMDAwMDAwMDAwfQ" then
    Returns {| Api.exp := Some (-9000000000000) |}         (* {"exp":-9000000000000} *)
  else if String.eqb segment "e30" then                     (* {} *)
    Returns {| Api.exp := None |}
  else Throws (new_Error "Unexpected token in JSON").

Definition jwt (claims : string) : string :=
  "eyJhbGciOiJIUzI1NiJ9." +:+ claims +:+ ".c2ln".

(** A stored session, and a world at 2023-11-14T22:13:20Z holding it. *)
Definition session (tok walletAddress : string) : gmap string string :=
  <[ "walletAddress" := walletAddress ]> (<[ "token" := tok ]> ∅).

Definition world_with (st : gmap string string)
  : Api.World (gmap string string) unit :=
  {| Api.storage := st; Api.remote := tt; Api.clock := 1700000000000;
     Api.requests := [] |}.

(** A backend for the endpoints outside the session, with one answer per
    endpoint, and a state holding a store. *)
Definition backend (mint : Api.settled (Endpoints.MintData string))
                   (verify : Api.settled CreateBackground.StatusResponse)
                   (create secret : Api.settled string)
  : Endpoints.Backend unit string :=
  {| Endpoints.post_mint := fun _ _ _ _ _ n => (mint, n);
     Endpoints.get_verify := fun _ _ n => (verify, n);
     Endpoints.post_create := fun _ _ _ _ n => (create, n);
     Endpoints.post_set_secret := fun _ _ _ n => (secret, n) |}.

Definition state_with (st : gmap string string)
  : Endpoints.State (gmap string string) unit :=
  {| Endpoints.core := world_with st; Endpoints.sent := [] |}.

(** An event bus without failing listeners, and one with. *)
Definition quiet_bus (_ : Endpoints.MintData string) : completion unit :=
  Returns tt.

Definition failing_bus (_ : Endpoints.MintData string) : completion unit :=
  Throws boom.

(** The status endpoint's answer for a background confirmed on chain. *)
Definition minted : CreateBackground.BackgroundInfo :=
  {| CreateBackground.blockchainId := Some "0xabc";
     CreateBackground.transactionHash := Some "0x5e1f" |}.

Definition confirmed_response : CreateBackground.StatusResponse :=
  {| CreateBackground.status := "confirmed";
     CreateBackground.background := Some minted |}.

End Scenarios.

(** * Properties *)

(** ** The listener registry *)

Module DatabaseEventsSpec.

Import Js DatabaseEvents.

Section Emit.

Context {Background W : Type}.
Variable call : callback -> Background -> W -> completion unit * W.

Lemma forEach_app (l1 l2 : list callback) (b : Background) (w : W)
                  (seen : list callback) :
  forEach call (l1 ++ l2) b w seen =
  match outcome (forEach call l1 b w seen) with
  | Returns _ =>
      forEach call l2 b (world (forEach call l1 b w seen))
              (invoked (forEach call l1 b w seen))
  | Throws _ => forEach call l1 b w seen
  end.
Proof.
  revert w seen.
  induction l1 as [|c l1 IH]; intros w seen; simpl; [reflexivity|].
  destruct (call c b w) as [[[]|e] w']; simpl; [apply IH | reflexivity].
Qed.

(** The callbacks invoked are a prefix of the list, appended to [seen]. *)
Lemma forEach_invoked (l : list callback) (b : Background) (w : W)
                      (seen : list callback) :
  exists k, invoked (forEach call l b w seen) = seen ++ take k l /\
            (outcome (forEach call l b w seen) = Returns tt -> take k l = l).
Proof.
  revert w seen.
  induction l as [|c l IH]; intros w seen; simpl.
  - exists 0%nat. rewrite app_nil_r. auto.
  - destruct (call c b w) as [[[]|e] w']; simpl.
    + destruct (IH w' (seen ++ [c])) as (k & Hk & Hall).
      exists (S k). rewrite Hk, <- app_assoc. simpl.
      split; [reflexivity|]. intros H. f_equal. auto.
    + exists 1%nat. simpl. rewrite take_0. split; [reflexivity|]. discriminate.
Qed.

Lemma forEach_returns_all (l : list callback) (b : Background) (w : W) :
  outcome (forEach call l b w []) = Returns tt ->
  invoked (forEach call l b w []) = l.
Proof.
  intros H. destruct (forEach_invoked l b w []) as (k & Hk & Hall).
  rewrite Hk. simpl. auto.
Qed.

Lemma forEach_first_throw (pre post : list callback) (c : callback)
    (b : Background) (w w1 w2 : W) (e : Error) :
  forEach call pre b w [] =
    {| outcome := Returns tt; world := w1; invoked := pre |} ->
  call c b w1 = (Throws e, w2) ->
  forEach call (pre ++ c :: post) b w [] =
    {| outcome := Throws e; world := w2; invoked := pre ++ [c] |}.
Proof.
  intros Hpre Hc. rewrite forEach_app, Hpre. simpl. rewrite Hc. reflexivity.
Qed.

End Emit.

Lemma remove_app (c : callback) (l1 l2 : list callback) :
  remove c (l1 ++ l2) = remove c l1 ++ remove c l2.
Proof. apply List.filter_app. Qed.

Lemma remove_self (c : callback) : remove c [c] = [].
Proof. unfold remove. simpl. rewrite Nat.eqb_refl. reflexivity. Qed.

Lemma remove_not_in (c : callback) (l : list callback) : ~ In c (remove c l).
Proof.
  unfold remove. rewrite List.filter_In. intros [_ H].
  rewrite Nat.eqb_refl in H. discriminate.
Qed.

Lemma remove_idempotent (c : callback) (l : list callback) :
  remove c (remove c l) = remove c l.
Proof.
  unfold remove. induction l as [|x l IH]; simpl; [reflexivity|].
  destruct (Nat.eqb x c) eqn:E; simpl; [exact IH|].
  rewrite E. simpl. f_equal. exact IH.
Qed.

(** C3, as the code has it: an emit invokes the callbacks in registration
    order and stops at the first one that throws.  The callbacks registered
    before it have been invoked, those registered after it are not, and the
    exception leaves the emit and reaches its caller. *)
Theorem emit_stops_at_first_throw {Background W : Type}
    (call : callback -> Background -> W -> completion unit * W)
    (ls : listeners) (pre post : list callback) (c : callback)
    (b : Background) (w w1 w2 : W) (e : Error) :
  forEach call pre b w [] =
    {| outcome := Returns tt; world := w1; invoked := pre |} ->
  call c b w1 = (Throws e, w2) ->
  (backgroundAdded ls = pre ++ c :: post ->
   emitBackgroundAdded call b ls w =
     {| outcome := Throws e; world := w2; invoked := pre ++ [c] |}) /\
  (backgroundUpdated ls = pre ++ c :: post ->
   emitBackgroundUpdated call b ls w =
     {| outcome := Throws e; world := w2; invoked := pre ++ [c] |}).
Proof.
  intros Hpre Hc.
  split; intros Hl; unfold emitBackgroundAdded, emitBackgroundUpdated;
    rewrite Hl; eapply forEach_first_throw; eassumption.
Qed.

(** Two subscribers, the second of which throws: the first has run, and the
    emit throws. *)
Lemma emit_stops_at_first_throw_witness :
  let ls := {| backgroundAdded := [1; 0; 2]; backgroundUpdated := [] |}%nat in
  emitBackgroundAdded Scenarios.logging_calls tt ls [] =
    {| outcome := Throws Scenarios.boom; world := [1%nat];
       invoked := [1; 0]%nat |}.
Proof.
  intros ls.
  apply (emit_stops_at_first_throw Scenarios.logging_calls ls
           [1%nat] [2%nat] 0%nat tt [] [1%nat] [1%nat] Scenarios.boom);
    reflexivity.
Defined.

(** C3 as stated fails: with a throwing callback registered before a
    sibling, the sibling is not invoked and the emit throws. *)
Lemma emit_does_not_isolate_failures :
  let ls1 := fst (onBackgroundAdded 0%nat empty) in
  let ls2 := fst (onBackgroundAdded 1%nat ls1) in
  let r := emitBackgroundAdded Scenarios.logging_calls tt ls2 [] in
  backgroundAdded ls2 = [0; 1]%nat /\
  outcome r = Throws Scenarios.boom /\
  ~ In 1%nat (invoked r) /\
  world r = [].
Proof.
  cbv zeta. repeat split; try reflexivity.
  simpl. intros [H|[]]. discriminate.
Qed.

(** C4, as the code has it: subscribing the same callback twice registers
    it twice, and an emit in which no callback throws invokes both
    registrations; one unsubscribe removes every registration of the
    callback at once, and unsubscribing again changes nothing. *)
Theorem subscribe_twice_unsubscribe_once (c : callback) (ls : listeners) :
  let on1 := onBackgroundAdded c ls in
  let on2 := onBackgroundAdded c (fst on1) in
  let ls2 := fst on2 in
  backgroundAdded ls2 = backgroundAdded ls ++ [c; c] /\
  (forall (Background W : Type)
          (call : callback -> Background -> W -> completion unit * W)
          (b : Background) (w : W),
     outcome (emitBackgroundAdded call b ls2 w) = Returns tt ->
     invoked (emitBackgroundAdded call b ls2 w) = backgroundAdded ls ++ [c; c]) /\
  ~ In c (backgroundAdded (snd on1 ls2)) /\
  snd on1 ls2 = offBackgroundAdded c ls /\
  snd on2 (snd on1 ls2) = snd on1 ls2 /\
  snd on1 (snd on1 ls2) = snd on1 ls2.
Proof.
  cbv zeta. unfold onBackgroundAdded, offBackgroundAdded. simpl.
  assert (Happ : (backgroundAdded ls ++ [c]) ++ [c] = backgroundAdded ls ++ [c; c])
    by (rewrite <- app_assoc; reflexivity).
  assert (Hrem : remove c ((backgroundAdded ls ++ [c]) ++ [c])
                 = remove c (backgroundAdded ls))
    by (rewrite !remove_app, remove_self, !app_nil_r; reflexivity).
  rewrite Hrem, remove_idempotent.
  split; [exact Happ|].
  split.
  { intros B W call b w H. unfold emitBackgroundAdded in *. simpl in *.
    rewrite <- Happ. apply forEach_returns_all. exact H. }
  split; [apply remove_not_in|].
  repeat split.
Qed.

(** The premise of the second part can be met: both registrations run. *)
Lemma subscribe_twice_unsubscribe_once_witness :
  let ls2 := fst (onBackgroundAdded 5%nat (fst (onBackgroundAdded 5%nat empty))) in
  invoked (emitBackgroundAdded Scenarios.logging_calls tt ls2 []) = [5; 5]%nat.
Proof.
  intros ls2.
  apply (proj1 (proj2 (subscribe_twice_unsubscribe_once 5%nat empty))).
  reflexivity.
Defined.

(** C4 as stated fails: after two subscriptions of one callback, a single
    unsubscribe leaves no registration of it (not one). *)
Lemma single_unsubscribe_removes_both :
  let on1 := onBackgroundAdded 5%nat empty in
  let on2 := onBackgroundAdded 5%nat (fst on1) in
  backgroundAdded (fst on2) = [5; 5]%nat /\
  backgroundAdded (snd on2 (fst on2)) = [] /\
  invoked (emitBackgroundAdded Scenarios.logging_calls tt
             (snd on2 (fst on2)) []) = [].
Proof. cbv zeta. repeat apply conj; reflexivity. Qed.

End DatabaseEventsSpec.

(** ** The REST client *)

Module ApiSpec.

Import Js Api.

Example toLowerCase_address : toLowerCase "0xAbCdEF12" = "0xabcdef12".
Proof. reflexivity. Qed.

Example split_jwt : split "." "aa.bb.cc" = ["aa"; "bb"; "cc"].
Proof. reflexivity. Qed.

Example split_empty : split "." "" = [""].
Proof. reflexivity. Qed.

Section Client.

Context {Store : Type} `{!Storage Store} {N Json : Type}.
Variable srv : Server N Json.
Variable decodeClaims : string -> completion Claims.

Implicit Types (w : World Store N) (a t walletAddress signature : string).

(** *** [getAuthHeaders] *)

Lemma getAuthHeaders_run w :
  getAuthHeaders w = (Returns (auth_headers (storage w)), w).
Proof.
  unfold getAuthHeaders, getToken, try_catch, bind, localStorage_getItem,
    auth_headers, ret.
  destruct (getItem "token" (storage w)) as [t|]; simpl; [|reflexivity].
  destruct (String.eqb t "") eqn:Ht; simpl; [reflexivity|].
  rewrite Ht. reflexivity.
Qed.

(** *** [loginWithWallet] *)

(** Every call puts exactly one login request on the wire, carrying the
    lower-cased address, whatever the answer. *)
Lemma loginWithWallet_requests walletAddress signature w :
  requests (snd (loginWithWallet srv walletAddress signature w)) =
  requests w ++ [PostLogin (toLowerCase walletAddress) signature].
Proof.
  unfold loginWithWallet. open_calls.
  destruct (post_login srv _ _ _) as [[[d|]|e] n']; simpl.
  - destruct (token d) as [tok|]; simpl; [|reflexivity].
    destruct (String.eqb tok ""); simpl; [reflexivity|].
    case_bool_decide; reflexivity.
  - reflexivity.
  - destruct (Js.response e) as [[st [[[m|]]|]]|]; simpl; try reflexivity.
    destruct (String.eqb m ""); reflexivity.
Qed.

(** A call that returns has stored the token it returns and the address
    it was given. *)
Lemma loginWithWallet_returns walletAddress signature w d w' :
  loginWithWallet srv walletAddress signature w = (Returns d, w') ->
  exists tok n',
    post_login srv (toLowerCase walletAddress) signature (remote w)
      = (Resolved (Some d), n') /\
    token d = Some tok /\ truthy (token d) = true /\
    w' = {| storage := setItem "walletAddress" walletAddress
                         (setItem "token" tok (storage w));
            remote := n'; clock := clock w;
            requests := requests w
                        ++ [PostLogin (toLowerCase walletAddress) signature] |}.
Proof.
  unfold loginWithWallet. open_calls.
  destruct (post_login srv _ _ _) as [[[d0|]|e] n']; simpl.
  - destruct (token d0) as [tok|] eqn:Htok; simpl; [|discriminate].
    destruct (String.eqb tok "") eqn:Hne; simpl; [discriminate|].
    case_bool_decide; simpl; [|discriminate].
    intros [= <- <-]. exists tok, n'. rewrite Htok. simpl. rewrite Hne. auto.
  - discriminate.
  - destruct (Js.response e) as [[st [[[m|]]|]]|]; simpl; try discriminate.
    destruct (String.eqb m ""); discriminate.
Qed.

(** *** [checkAuthState] *)

(** The validation block, by the answer to its test request. *)
Lemma validateRemotely_run a w :
  validateRemotely srv a w =
  let h := auth_headers (storage w) in
  let w1 := answered (GetMe h) (snd (get_me srv h (remote w))) w in
  match fst (get_me srv h (remote w)) with
  | Resolved body => (Returns (validation_of body), w1)
  | Rejected e =>
      if is_401 e then
        match loginWithWallet srv a (mock_signature a) w1 with
        | (Returns _, w2) => (Returns refreshed, w2)
        | (Throws _, w2) => (Returns (validation_failed e), w2)
        end
      else (Returns (validation_failed e), w1)
  end.
Proof.
  unfold validateRemotely, try_catch at 1, bind at 1.
  rewrite getAuthHeaders_run. cbv zeta.
  unfold bind, axios, answered, ret.
  destruct (get_me srv _ _) as [[body|e] n']; simpl; [reflexivity|].
  destruct (is_401 e); [|reflexivity].
  unfold try_catch.
  destruct (loginWithWallet srv a (mock_signature a) _) as [[r|e'] w2] eqn:Hl;
    [|reflexivity].
  destruct (loginWithWallet_returns _ _ _ _ _ Hl) as (tok & n2 & _ & _ & Ht & _).
  rewrite Ht. reflexivity.
Qed.

Lemma validateRemotely_returns a w :
  exists status, fst (validateRemotely srv a w) = Returns status.
Proof.
  rewrite validateRemotely_run. cbv zeta.
  destruct (fst (get_me srv _ _)) as [body|e]; simpl; [eauto|].
  destruct (is_401 e); [|simpl; eauto].
  destruct (loginWithWallet srv _ _ _) as [[r|e'] w2]; simpl; eauto.
Qed.

(** The requests of the validation block start with the test request,
    which carries the stored token. *)
Lemma validateRemotely_requests a w :
  exists rest,
    requests (snd (validateRemotely srv a w)) =
    requests w ++ GetMe (auth_headers (storage w)) :: rest.
Proof.
  rewrite validateRemotely_run. cbv zeta.
  destruct (fst (get_me srv _ _)) as [body|e]; simpl; [exists []; reflexivity|].
  destruct (is_401 e); [|exists []; reflexivity].
  pose proof (loginWithWallet_requests a (mock_signature a)
    (answered (GetMe (auth_headers (storage w)))
              (snd (get_me srv (auth_headers (storage w)) (remote w))) w)) as Hr.
  destruct (loginWithWallet srv _ _ _) as [[r|e'] w2]; simpl in *;
    rewrite Hr, <- app_assoc; eexists; reflexivity.
Qed.

(** [checkAuthState] factors through [evaluate]: nothing is sent for an
    unauthenticated session, a valid one goes to the validation block, and
    one about to expire logs in again and, should that throw, goes on to
    the validation block. *)
Lemma checkAuthState_by_evaluate w :
  checkAuthState srv decodeClaims w =
  match evaluate decodeClaims (storage w) (clock w),
        getItem "walletAddress" (storage w) with
  | Valid, Some a => validateRemotely srv a w
  | ExpiringSoon, Some a =>
      match loginWithWallet srv a (mock_signature a) w with
      | (Returns _, w2) => (Returns refreshed, w2)
      | (Throws _, w2) => validateRemotely srv a w2
      end
  | _, _ => (Returns not_authenticated, w)
  end.
Proof.
  assert (Hv : forall a w0,
             match validateRemotely srv a w0 with
             | (Returns s, w') => (Returns s, w')
             | (Throws e, w') =>
                 (Returns {| isAuthenticated := false;
                             message := "Authentication check failed: "
                               +:+ or_else (Js.message e) "Unknown error" |}, w')
             end = validateRemotely srv a w0).
  { intros a w0. destruct (validateRemotely_returns a w0) as [s Hs].
    destruct (validateRemotely srv a w0) as [[s'|e] w']; simpl in Hs;
      [reflexivity|discriminate]. }
  unfold checkAuthState, evaluate, try_catch at 1, bind at 1 2,
    localStorage_getItem, ret.
  destruct (getItem "token" (storage w)) as [t|];
    destruct (getItem "walletAddress" (storage w)) as [a|]; simpl;
    try reflexivity.
  destruct (String.eqb t ""); simpl; [reflexivity|].
  destruct (String.eqb a ""); simpl; [reflexivity|].
  unfold bind, refreshIfExpiring, try_catch, throw, ret.
  destruct (length (split "." t) =? 3)%nat; [|apply Hv].
  destruct (decodeClaims _) as [[[e|]]|err]; cbn [exp]; try apply Hv.
  destruct (e =? 0); [apply Hv|].
  unfold bind, Date_now, ret.
  destruct (expires_within_10min _ _); [|apply Hv].
  destruct (loginWithWallet srv a (mock_signature a) w) as [[r|e'] w2] eqn:Hl;
    [|apply Hv].
  destruct (loginWithWallet_returns _ _ _ _ _ Hl) as (tok & n2 & _ & _ & Ht & _).
  rewrite Ht. reflexivity.
Qed.

Lemma truthy_nonempty (v : string) : v <> "" -> String.eqb v "" = false.
Proof. intros H. apply String.eqb_neq. exact H. Qed.

(** C7: when the stored token or the stored wallet address is absent, the
    session is unauthenticated and [checkAuthState] answers at once with
    [isAuthenticated: false]: the world it leaves is the one it found and
    no request has been sent, neither a login nor a test request.  Absent
    is what the guard [!token || !walletAddress] takes for absent: the key
    is missing, or it holds the empty string. *)
Theorem missing_session_sends_nothing w :
  (getItem "token" (storage w) = None \/
   getItem "token" (storage w) = Some "") \/
  (getItem "walletAddress" (storage w) = None \/
   getItem "walletAddress" (storage w) = Some "") ->
  evaluate decodeClaims (storage w) (clock w) = Unauthenticated /\
  checkAuthState srv decodeClaims w =
    (Returns {| isAuthenticated := false;
                message := "Not authenticated - please connect your wallet" |},
     w) /\
  requests (snd (checkAuthState srv decodeClaims w)) = requests w /\
  count_logins (requests (snd (checkAuthState srv decodeClaims w)))
    = count_logins (requests w) /\
  count_probes (requests (snd (checkAuthState srv decodeClaims w)))
    = count_probes (requests w).
Proof.
  intros Habsent.
  assert (He : evaluate decodeClaims (storage w) (clock w) = Unauthenticated).
  { unfold evaluate.
    destruct Habsent as [[Ht | Ht] | [Ha | Ha]]; rewrite ?Ht, ?Ha;
      try reflexivity.
    - destruct (getItem "walletAddress" (storage w)); reflexivity.
    - destruct (getItem "token" (storage w)); reflexivity.
    - destruct (getItem "token" (storage w)) as [t|]; [|reflexivity].
      simpl. rewrite orb_true_r. reflexivity. }
  rewrite checkAuthState_by_evaluate, He. simpl.
  repeat apply conj; reflexivity.
Qed.

(** C8: a stored token that does not split into three segments, or whose
    claims segment cannot be decoded, leaves the session valid:
    [checkAuthState] goes on to the test request, which carries that token. *)
Theorem undecodable_token_fails_open w t a :
  getItem "token" (storage w) = Some t ->
  getItem "walletAddress" (storage w) = Some a ->
  t <> "" -> a <> "" ->
  (length (split "." t) <> 3%nat \/
   exists e, decodeClaims (nth 1 (split "." t) "") = Throws e) ->
  evaluate decodeClaims (storage w) (clock w) = Valid /\
  checkAuthState srv decodeClaims w = validateRemotely srv a w /\
  exists rest,
    requests (snd (checkAuthState srv decodeClaims w)) =
    requests w
    ++ GetMe (<[ "Authorization" := "Bearer " +:+ t ]>
                {[ "Content-Type" := "application/json" ]}) :: rest.
Proof.
  intros Ht Ha Htne Hane Hopaque.
  assert (He : evaluate decodeClaims (storage w) (clock w) = Valid).
  { unfold evaluate. rewrite Ht, Ha. simpl.
    rewrite (truthy_nonempty t Htne), (truthy_nonempty a Hane). simpl.
    destruct Hopaque as [Hlen | [e Hdec]].
    - apply Nat.eqb_neq in Hlen. rewrite Hlen. reflexivity.
    - rewrite Hdec. destruct (_ =? _)%nat; reflexivity. }
  assert (Hrun : checkAuthState srv decodeClaims w = validateRemotely srv a w)
    by (rewrite checkAuthState_by_evaluate, He, Ha; reflexivity).
  split; [exact He|]. split; [exact Hrun|].
  rewrite Hrun. destruct (validateRemotely_requests a w) as [rest Hrest].
  exists rest. rewrite Hrest. unfold auth_headers. rewrite Ht. simpl.
  rewrite (truthy_nonempty t Htne). reflexivity.
Qed.

(** C2, as the code has it: for a token of three segments whose claims
    decode to a non-zero expiry that a Date can hold, the session is about
    to expire exactly when fewer than ten minutes remain (also when the
    expiry has passed) and valid otherwise; in the first case
    [checkAuthState] starts by logging in again, in the second by the test
    request. *)
Theorem expiry_boundary_is_ten_minutes w t a header claims signature (e : Z) :
  getItem "token" (storage w) = Some t ->
  getItem "walletAddress" (storage w) = Some a ->
  a <> "" ->
  split "." t = [header; claims; signature] ->
  decodeClaims claims = Returns {| exp := Some e |} ->
  e <> 0 ->
  Z.abs (e * 1000) <= 8640000000000000 ->
  (evaluate decodeClaims (storage w) (clock w) = ExpiringSoon
   <-> e * 1000 - clock w < 10 * 60 * 1000) /\
  (evaluate decodeClaims (storage w) (clock w) = Valid
   <-> 10 * 60 * 1000 <= e * 1000 - clock w) /\
  (e * 1000 - clock w < 10 * 60 * 1000 ->
   exists rest,
     requests (snd (checkAuthState srv decodeClaims w)) =
     requests w ++ PostLogin (toLowerCase a) (mock_signature a) :: rest) /\
  (10 * 60 * 1000 <= e * 1000 - clock w ->
   exists rest,
     requests (snd (checkAuthState srv decodeClaims w)) =
     requests w ++ GetMe (auth_headers (storage w)) :: rest).
Proof.
  intros Ht Ha Hane Hsplit Hdec Hnz Hrange.
  assert (Htne : t <> "") by (intros ->; discriminate Hsplit).
  assert (He : evaluate decodeClaims (storage w) (clock w) =
               if e * 1000 - clock w <? 10 * 60 * 1000 then ExpiringSoon
               else Valid).
  { unfold evaluate. rewrite Ht, Ha. simpl.
    rewrite (truthy_nonempty t Htne), (truthy_nonempty a Hane). simpl.
    rewrite Hsplit. simpl. rewrite Hdec. simpl.
    apply Z.eqb_neq in Hnz. rewrite Hnz.
    unfold Date_getTime. apply Z.leb_le in Hrange. rewrite Hrange.
    reflexivity. }
  rewrite checkAuthState_by_evaluate, He, Ha.
  destruct (Z.ltb_spec (e * 1000 - clock w) (10 * 60 * 1000)) as [Hlt|Hge].
  - split; [split; [intros _; exact Hlt | reflexivity]|].
    split; [split; [discriminate | lia]|].
    split; [intros _ | lia].
    pose proof (loginWithWallet_requests a (mock_signature a) w) as Hr.
    destruct (loginWithWallet srv a (mock_signature a) w) as [[r|e'] w2];
      simpl in Hr.
    + exists []. exact Hr.
    + destruct (validateRemotely_requests a w2) as [rest Hrest].
      rewrite Hrest, Hr, <- app_assoc. eexists. reflexivity.
  - split; [split; [discriminate | lia]|].
    split; [split; [intros _; exact Hge | reflexivity]|].
    split; [lia | intros _].
    apply validateRemotely_requests.
Qed.

(** Sessions that are valid locally, to which the bounds of the session
    guard apply as they are written: [checkAuthState] sends one test
    request.  Answered, nothing else is sent.  Rejected with
    a response of status 401, one login follows and the result says whether
    it succeeded.  Rejected otherwise (another status, or no response at
    all), the result is negative and no login is sent.  In all cases at
    most two requests leave, and [checkAuthState] returns. *)
Theorem valid_session_one_probe_at_most_one_refresh w :
  evaluate decodeClaims (storage w) (clock w) = Valid ->
  exists a status issued,
    getItem "walletAddress" (storage w) = Some a /\
    fst (checkAuthState srv decodeClaims w) = Returns status /\
    requests (snd (checkAuthState srv decodeClaims w)) = requests w ++ issued /\
    count_probes issued = 1%nat /\
    (count_logins issued <= 1)%nat /\
    (length issued <= 2)%nat /\
    let h := auth_headers (storage w) in
    let w1 := answered (GetMe h) (snd (get_me srv h (remote w))) w in
    match fst (get_me srv h (remote w)) with
    | Resolved body =>
        issued = [GetMe h] /\ status = validation_of body
    | Rejected err =>
        match Js.response err with
        | Some r =>
            if err_status r =? 401 then
              issued = [GetMe h; PostLogin (toLowerCase a) (mock_signature a)] /\
              isAuthenticated status =
                negb (threw (fst (loginWithWallet srv a (mock_signature a) w1)))
            else
              issued = [GetMe h] /\ isAuthenticated status = false
        | None =>
            issued = [GetMe h] /\ isAuthenticated status = false
        end
    end.
Proof.
  intros He.
  assert (Ha : exists a, getItem "walletAddress" (storage w) = Some a).
  { unfold evaluate in He.
    destruct (getItem "token" (storage w)); [|discriminate].
    destruct (getItem "walletAddress" (storage w)); [eauto | discriminate]. }
  destruct Ha as [a Ha]. exists a.
  rewrite checkAuthState_by_evaluate, He, Ha, validateRemotely_run. cbv zeta.
  destruct (fst (get_me srv _ _)) as [body|err]; simpl.
  { eexists _, [_]. repeat split; auto. }
  unfold is_401.
  destruct (Js.response err) as [r|];
    [destruct (err_status r =? 401)|].
  - pose proof (loginWithWallet_requests a (mock_signature a)
      (answered (GetMe (auth_headers (storage w)))
         (snd (get_me srv (auth_headers (storage w)) (remote w))) w)) as Hr.
    destruct (loginWithWallet srv _ _ _) as [[d|e'] w2]; simpl in *;
      eexists _, [_; _]; rewrite Hr, <- app_assoc;
      repeat split; auto.
  - eexists _, [_]. repeat split; auto.
  - eexists _, [_]. repeat split; auto.
Qed.

(** C5: a login answered with 200 and a body without a token throws, and
    the local storage is as it was: neither key has been written. *)
Theorem login_without_token_fails walletAddress signature w
    (body : option LoginData) :
  fst (post_login srv (toLowerCase walletAddress) signature (remote w))
    = Resolved body ->
  (forall d, body = Some d -> token d = None) ->
  fst (loginWithWallet srv walletAddress signature w)
    = Throws (new_Error ("Failed to login with wallet: "
                         +:+ "Authentication failed: server response missing token")) /\
  storage (snd (loginWithWallet srv walletAddress signature w)) = storage w.
Proof.
  intros Hans Hnotoken.
  unfold loginWithWallet. open_calls.
  destruct (post_login srv _ _ _) as [ans n']. simpl in Hans. subst ans.
  destruct body as [d|]; simpl.
  - rewrite (Hnotoken d eq_refl). simpl. split; reflexivity.
  - split; reflexivity.
Qed.

(** C9: a login that succeeds has sent the lower-cased address, and that
    request only, and has written the address it was called with, as it
    was given, after the token. *)
Theorem login_normalizes_for_the_wire_only walletAddress signature w d w' :
  loginWithWallet srv walletAddress signature w = (Returns d, w') ->
  requests w' = requests w ++ [PostLogin (toLowerCase walletAddress) signature] /\
  (exists tok,
     token d = Some tok /\
     storage w' = setItem "walletAddress" walletAddress
                          (setItem "token" tok (storage w))) /\
  (LawfulStorage Store ->
   getItem "walletAddress" (storage w') = Some walletAddress).
Proof.
  intros Hrun.
  destruct (loginWithWallet_returns _ _ _ _ _ Hrun)
    as (tok & n' & _ & Htok & _ & ->); simpl.
  split; [reflexivity|].
  split; [exists tok; auto|].
  intros Hlaw. apply getItem_setItem_eq.
Qed.

(** On a store that keeps its writes, a login that returns leaves both
    keys set: the token the backend sent and the address as given. *)
Lemma loginWithWallet_session `{!LawfulStorage Store}
    walletAddress signature w d w' :
  loginWithWallet srv walletAddress signature w = (Returns d, w') ->
  getItem "token" (storage w') = token d /\
  getItem "walletAddress" (storage w') = Some walletAddress.
Proof.
  intros Hrun.
  destruct (loginWithWallet_returns _ _ _ _ _ Hrun)
    as (tok & n' & _ & Htok & _ & ->); simpl.
  rewrite Htok, getItem_setItem_ne, !getItem_setItem_eq by discriminate.
  auto.
Qed.

(** After [logout] the session is unauthenticated, whatever it was. *)
Lemma logout_unauthenticated `{!LawfulStorage Store} w :
  fst (logout w) = Returns tt /\
  requests (snd (logout w)) = requests w /\
  evaluate decodeClaims (storage (snd (logout w))) (clock w) = Unauthenticated.
Proof.
  unfold logout, evaluate. open_calls. simpl.
  rewrite getItem_removeItem_eq.
  destruct (getItem "token" _); auto.
Qed.

(** *** Gift cards *)

(** Whatever the backend rejected a transfer with, the caller gets the
    same fixed message. *)
Lemma transferGiftCard_rejected giftCardId recipientAddress w (e : Error) :
  fst (post_transfer srv giftCardId recipientAddress
         (auth_headers (storage w)) (remote w)) = Rejected e ->
  fst (transferGiftCard srv giftCardId recipientAddress w)
    = Throws (new_Error "Failed to transfer gift card").
Proof.
  intros Hans. unfold transferGiftCard, try_catch, bind.
  rewrite getAuthHeaders_run. unfold axios, throw.
  destruct (post_transfer srv _ _ _ _) as [ans n']. simpl in Hans. subst ans.
  reflexivity.
Qed.

(** A rejected claim hands the [error] field of the backend's body on. *)
Lemma claimGiftCard_rejected giftCardId secret w (e : Error) (msg : string) :
  fst (post_claim srv giftCardId secret
         (auth_headers (storage w)) (remote w)) = Rejected e ->
  response_error e = Some msg -> msg <> "" ->
  fst (claimGiftCard srv giftCardId secret w)
    = Returns {| success := false; data := None; error := Some msg |}.
Proof.
  intros Hans Hmsg Hne. unfold claimGiftCard, try_catch, bind.
  rewrite getAuthHeaders_run. unfold axios, ret.
  destruct (post_claim srv _ _ _ _) as [ans n']. simpl in Hans. subst ans.
  simpl. rewrite Hmsg. simpl. rewrite (truthy_nonempty msg Hne). reflexivity.
Qed.

End Client.

#[export] Instance gmap_storage_lawful : LawfulStorage (gmap string string).
Proof.
  split; intros; simpl.
  - apply lookup_insert_eq.
  - apply lookup_insert_ne. assumption.
  - apply lookup_delete_eq.
Qed.

Lemma login_without_token_fails_witness :
  let srv := Scenarios.server Scenarios.login_without_token Scenarios.me_ok
               Scenarios.unreachable Scenarios.unreachable in
  let w := Scenarios.world_with ∅ in
  fst (loginWithWallet srv "0xAbC" "sig" w)
    = Throws (new_Error ("Failed to login with wallet: "
                         +:+ "Authentication failed: server response missing token")) /\
  storage (snd (loginWithWallet srv "0xAbC" "sig" w)) = ∅.
Proof.
  intros srv w.
  apply (login_without_token_fails srv "0xAbC" "sig" w
           (Some {| token := None; user := Some "user" |})).
  - reflexivity.
  - intros d [= <-]. reflexivity.
Defined.

Lemma login_normalizes_for_the_wire_only_witness :
  let srv := Scenarios.server (Scenarios.login_ok "tok") Scenarios.me_ok
               Scenarios.unreachable Scenarios.unreachable in
  let w' := snd (loginWithWallet srv "0xAbC" "sig" (Scenarios.world_with ∅)) in
  requests w' = [PostLogin "0xabc" "sig"] /\
  (exists tok,
     Some "tok" = Some tok /\
     storage w' = <[ "walletAddress" := "0xAbC" ]> (<[ "token" := tok ]> ∅)) /\
  (LawfulStorage (gmap string string) ->
   storage w' !! "walletAddress" = Some "0xAbC").
Proof.
  intros srv w'.
  assert (Hrun : loginWithWallet srv "0xAbC" "sig" (Scenarios.world_with ∅)
                 = (Returns {| token := Some "tok"; user := Some "user" |}, w'))
    by (vm_compute; reflexivity).
  exact (login_normalizes_for_the_wire_only srv "0xAbC" "sig" _ _ _ Hrun).
Defined.

(** Three sessions: the token was never stored; the token is stored as
    the empty string; the wallet address is stored as the empty string. *)
Lemma missing_session_sends_nothing_witness :
  let srv := Scenarios.server (Scenarios.login_ok "tok") Scenarios.me_ok
               Scenarios.unreachable Scenarios.unreachable in
  let answered_at_once w :=
    evaluate Scenarios.decodeClaims (storage w) (clock w) = Unauthenticated /\
    checkAuthState srv Scenarios.decodeClaims w =
      (Returns {| isAuthenticated := false;
                  message := "Not authenticated - please connect your wallet" |},
       w) /\
    requests (snd (checkAuthState srv Scenarios.decodeClaims w)) = requests w /\
    count_logins (requests (snd (checkAuthState srv Scenarios.decodeClaims w)))
      = count_logins (requests w) /\
    count_probes (requests (snd (checkAuthState srv Scenarios.decodeClaims w)))
      = count_probes (requests w) in
  answered_at_once (Scenarios.world_with {[ "walletAddress" := "0xAbC" ]}) /\
  answered_at_once (Scenarios.world_with (Scenarios.session "" "0xAbC")) /\
  answered_at_once
    (Scenarios.world_with (Scenarios.session (Scenarios.jwt "e30") "")).
Proof.
  intros srv answered_at_once. split; [|split].
  - apply (missing_session_sends_nothing srv Scenarios.decodeClaims).
    left. left. reflexivity.
  - apply (missing_session_sends_nothing srv Scenarios.decodeClaims).
    left. right. reflexivity.
  - apply (missing_session_sends_nothing srv Scenarios.decodeClaims).
    right. right. reflexivity.
Defined.

Lemma undecodable_token_fails_open_witness :
  let srv := Scenarios.server (Scenarios.login_ok "tok") Scenarios.me_ok
               Scenarios.unreachable Scenarios.unreachable in
  let w := Scenarios.world_with (Scenarios.session "opaque-token" "0xAbC") in
  evaluate Scenarios.decodeClaims (storage w) (clock w) = Valid /\
  checkAuthState srv Scenarios.decodeClaims w = validateRemotely srv "0xAbC" w /\
  exists rest,
    requests (snd (checkAuthState srv Scenarios.decodeClaims w)) =
    requests w
    ++ GetMe (<[ "Authorization" := "Bearer " +:+ "opaque-token" ]>
                {[ "Content-Type" := "application/json" ]}) :: rest.
Proof.
  intros srv w.
  apply (undecodable_token_fails_open srv Scenarios.decodeClaims w
           "opaque-token" "0xAbC"); try reflexivity; try discriminate.
  left. vm_compute. discriminate.
Defined.

(** A token that expires nine minutes from now. *)
Lemma expiry_boundary_is_ten_minutes_witness :
  let srv := Scenarios.server (Scenarios.login_ok "tok") Scenarios.me_ok
               Scenarios.unreachable Scenarios.unreachable in
  let t := Scenarios.jwt "eyJleHAiOjE3MDAwMDA1NDB9" in
  let w := Scenarios.world_with (Scenarios.session t "0xAbC") in
  evaluate Scenarios.decodeClaims (storage w) (clock w) = ExpiringSoon /\
  exists rest,
    requests (snd (checkAuthState srv Scenarios.decodeClaims w)) =
    requests w
    ++ PostLogin (toLowerCase "0xAbC") (mock_signature "0xAbC") :: rest.
Proof.
  intros srv t w.
  destruct (expiry_boundary_is_ten_minutes srv Scenarios.decodeClaims w t
              "0xAbC" "eyJhbGciOiJIUzI1NiJ9" "eyJleHAiOjE3MDAwMDA1NDB9" "c2ln"
              1700000540)
    as (Hsoon & _ & Hlogin & _);
    try reflexivity; try discriminate; try lia.
  split; [apply Hsoon | apply Hlogin]; simpl; lia.
Defined.

(** C2 as stated fails: a token whose claims carry the expiry [0] has
    expired long ago, and is not treated as about to expire: the session is
    valid and the first request is the test request, not a login.  The
    same holds for an expiry so far in the past that no Date holds it. *)
Lemma expiry_zero_or_out_of_range_is_valid :
  let srv := Scenarios.server (Scenarios.login_ok "tok") Scenarios.me_ok
               Scenarios.unreachable Scenarios.unreachable in
  let t := Scenarios.jwt "eyJleHAiOjB9" in
  let w := Scenarios.world_with (Scenarios.session t "0xAbC") in
  let t' := Scenarios.jwt "eyJleHAiOi05MDAwMDAwMDAwMDAwfQ" in
  let w' := Scenarios.world_with (Scenarios.session t' "0xAbC") in
  (split "." t = ["eyJhbGciOiJIUzI1NiJ9"; "eyJleHAiOjB9"; "c2ln"] /\
   Scenarios.decodeClaims "eyJleHAiOjB9" = Returns {| exp := Some 0 |} /\
   0 * 1000 - clock w < 10 * 60 * 1000 /\
   evaluate Scenarios.decodeClaims (storage w) (clock w) = Valid /\
   requests (snd (checkAuthState srv Scenarios.decodeClaims w)) =
     [GetMe (auth_headers (storage w))]) /\
  (split "." t' = ["eyJhbGciOiJIUzI1NiJ9"; "eyJleHAiOi05MDAwMDAwMDAwMDAwfQ";
                   "c2ln"] /\
   Scenarios.decodeClaims "eyJleHAiOi05MDAwMDAwMDAwMDAwfQ"
     = Returns {| exp := Some (-9000000000000) |} /\
   -9000000000000 * 1000 - clock w' < 10 * 60 * 1000 /\
   evaluate Scenarios.decodeClaims (storage w') (clock w') = Valid /\
   requests (snd (checkAuthState srv Scenarios.decodeClaims w')) =
     [GetMe (auth_headers (storage w'))]).
Proof. cbv zeta. repeat apply conj; reflexivity. Qed.

(** A session valid locally whose test request is rejected with 401 and
    whose login then succeeds. *)
Lemma valid_session_one_probe_at_most_one_refresh_witness :
  let srv := Scenarios.server (Scenarios.login_ok "tok")
               (Rejected
                  {| Js.message := Some "Request failed with status code 401";
                     Js.response :=
                       Some {| err_status := 401;
                               err_data :=
                                 Some {| body_error := Some "jwt expired" |} |} |})
               Scenarios.unreachable Scenarios.unreachable in
  let t := Scenarios.jwt "eyJleHAiOjE3MDAwMDA2NjB9" in
  let w := Scenarios.world_with (Scenarios.session t "0xAbC") in
  exists a status issued,
    getItem "walletAddress" (storage w) = Some a /\
    fst (checkAuthState srv Scenarios.decodeClaims w) = Returns status /\
    requests (snd (checkAuthState srv Scenarios.decodeClaims w))
      = requests w ++ issued /\
    count_probes issued = 1%nat /\
    (count_logins issued <= 1)%nat /\
    (length issued <= 2)%nat /\
    let h := auth_headers (storage w) in
    let w1 := answered (GetMe h) (snd (get_me srv h (remote w))) w in
    match fst (get_me srv h (remote w)) with
    | Resolved body =>
        issued = [GetMe h] /\ status = validation_of body
    | Rejected err =>
        match Js.response err with
        | Some r =>
            if err_status r =? 401 then
              issued = [GetMe h; PostLogin (toLowerCase a) (mock_signature a)] /\
              isAuthenticated status =
                negb (threw (fst (loginWithWallet srv a (mock_signature a) w1)))
            else
              issued = [GetMe h] /\ isAuthenticated status = false
        | None =>
            issued = [GetMe h] /\ isAuthenticated status = false
        end
    end.
Proof.
  intros srv t w.
  apply (valid_session_one_probe_at_most_one_refresh srv
           Scenarios.decodeClaims w).
  vm_compute. reflexivity.
Defined.

(** The check after the write: on a store that drops its writes, a login
    the backend accepted still throws. *)
Example login_checks_the_stored_token :
  let srv := Scenarios.server (Scenarios.login_ok "tok") Scenarios.me_ok
               Scenarios.unreachable Scenarios.unreachable in
  fst (@loginWithWallet _ readonly_storage _ _ srv "0xAbC" "sig"
         (Scenarios.world_with ∅))
  = Throws (new_Error ("Failed to login with wallet: "
                       +:+ "Failed to store authentication token")).
Proof. reflexivity. Qed.

(** The bound of two requests is for sessions that are valid locally.  For
    one about to expire whose login is rejected, the test request follows,
    and a 401 there brings a second login: three requests. *)
Example expiring_session_three_requests :
  let srv := Scenarios.server
               (Rejected (Scenarios.http_error 500 "database unavailable"))
               (Rejected (Scenarios.http_error 401 "jwt expired"))
               Scenarios.unreachable Scenarios.unreachable in
  let t := Scenarios.jwt "eyJleHAiOjE3MDAwMDA1NDB9" in
  let w := Scenarios.world_with (Scenarios.session t "0xAbC") in
  evaluate Scenarios.decodeClaims (storage w) (clock w) = ExpiringSoon /\
  requests (snd (checkAuthState srv Scenarios.decodeClaims w)) =
    [PostLogin "0xabc" "mock_signature_for_0xAbC";
     GetMe (auth_headers (storage w));
     PostLogin "0xabc" "mock_signature_for_0xAbC"] /\
  fst (checkAuthState srv Scenarios.decodeClaims w) =
    Returns (validation_failed (Scenarios.http_error 401 "jwt expired")).
Proof. cbv zeta. repeat apply conj; reflexivity. Qed.


(** The boundary itself: with exactly ten minutes left the session is
    valid; with eleven, too. *)
Example ten_minutes_left_is_valid :
  evaluate Scenarios.decodeClaims
    (Scenarios.session (Scenarios.jwt "eyJleHAiOjE3MDAwMDA2MDB9") "0xAbC")
    1700000000000 = Valid /\
  evaluate Scenarios.decodeClaims
    (Scenarios.session (Scenarios.jwt "eyJleHAiOjE3MDAwMDA2NjB9") "0xAbC")
    1700000000000 = Valid /\
  evaluate Scenarios.decodeClaims
    (Scenarios.session (Scenarios.jwt "eyJleHAiOjE3MDAwMDA2MDB9") "0xAbC")
    1700000000001 = ExpiringSoon.
Proof. repeat apply conj; reflexivity. Qed.

(** C10 fails on [transferGiftCard]: the backend rejects a transfer with
    403 and the message "only the owner may transfer"; the caller gets
    "Failed to transfer gift card".  [claimGiftCard], given the same
    rejection, hands the backend's message on. *)
Theorem transfer_replaces_backend_message :
  let rejection := Scenarios.http_error 403 "only the owner may transfer" in
  let srv := Scenarios.server (Scenarios.login_ok "tok") Scenarios.me_ok
               (Rejected rejection) (Rejected rejection) in
  let w := Scenarios.world_with (Scenarios.session "tok" "0xAbC") in
  fst (transferGiftCard srv "17" "0xDeF" w)
    = Throws (new_Error "Failed to transfer gift card") /\
  fst (claimGiftCard srv "17" "secret" w)
    = Returns {| success := false; data := None;
                 error := Some "only the owner may transfer" |}.
Proof. cbv zeta. split; reflexivity. Qed.

End ApiSpec.

(** ** The polling effect *)

Module CreateBackgroundSpec.

Import Js CreateBackground.

Lemma timer_owned_initial : timer_owned initial.
Proof. intros id H. discriminate H. Qed.

Lemma setPendingBackgroundId_owned (v : option Z) (p : Page) :
  timer_owned p -> timer_owned (setPendingBackgroundId v p).
Proof.
  intros Hp. unfold setPendingBackgroundId.
  destruct (mounted p) eqn:Hm; simpl; [|exact Hp].
  case_bool_decide; [exact Hp|].
  unfold effect, cleanup; simpl.
  destruct v as [n|]; simpl; [|intros id Hi; discriminate Hi].
  destruct (n =? 0); simpl; intros id Hi; [discriminate Hi|].
  injection Hi as <-. auto.
Qed.

Lemma checkBackgroundStatus_resume_owned (r : completion StatusResponse)
                                         (p : Page) :
  timer_owned p -> timer_owned (checkBackgroundStatus_resume r p).
Proof.
  intros Hp. unfold checkBackgroundStatus_resume.
  destruct r as [response|e]; [|exact Hp].
  destruct (confirmed response) as [[|]|e]; [| |exact Hp].
  - destruct (background response); [|exact Hp].
    apply setPendingBackgroundId_owned. exact Hp.
  - destruct (String.eqb _ _); [|exact Hp].
    apply setPendingBackgroundId_owned. exact Hp.
Qed.

Lemma step_owned (p : Page) (e : event) :
  timer_owned p -> timer_owned (step p e).
Proof.
  intros Hp. destruct e as [v| |i r|]; simpl.
  - apply setPendingBackgroundId_owned. exact Hp.
  - unfold tick. destruct (interval p); exact Hp.
  - unfold settle. destruct (inflight p !! i); [|exact Hp].
    apply checkBackgroundStatus_resume_owned. exact Hp.
  - intros id H. discriminate H.
Qed.

(** Every page reached from the initial one owns its timer. *)
Lemma run_owned (es : list event) (p : Page) :
  timer_owned p -> timer_owned (run es p).
Proof.
  revert p. induction es as [|e es IH]; intros p Hp; simpl; [exact Hp|].
  apply IH, step_owned, Hp.
Qed.

(** Resetting the pending id leaves no timer, whatever the page. *)
Lemma reset_clears_interval (p : Page) :
  timer_owned p -> interval (setPendingBackgroundId None p) = None.
Proof.
  intros Hp. unfold setPendingBackgroundId.
  destruct (mounted p) eqn:Hm; simpl.
  - case_bool_decide as Hv; [|reflexivity].
    destruct (interval p) as [id|] eqn:Hi; [|reflexivity].
    destruct (Hp id Hi) as [_ Hpend]. congruence.
  - destruct (interval p) as [id|] eqn:Hi; [|reflexivity].
    destruct (Hp id Hi) as [Hmt _]. congruence.
Qed.

Lemma reset_keeps_rest (p : Page) :
  inflight (setPendingBackgroundId None p) = inflight p /\
  toasts (setPendingBackgroundId None p) = toasts p /\
  mounted (setPendingBackgroundId None p) = mounted p /\
  (mounted p = true -> pendingBackgroundId (setPendingBackgroundId None p) = None).
Proof.
  unfold setPendingBackgroundId.
  destruct (mounted p) eqn:Hm; simpl.
  - case_bool_decide as Hv; simpl; auto.
  - repeat apply conj; try reflexivity; [exact Hm | intros Hf; discriminate Hf].
Qed.

(** C1, as the code has it: tearing the polling effect down (the page is
    unmounted, or its pending id is reset) clears the interval, so that no
    further status check is issued; a check already in flight is not
    discarded: when its response arrives with status confirmed and a
    blockchain id, the success toast is published.  Nothing is left
    pending afterwards: the interval stays cleared and a page still
    mounted holds no pending id. *)
Theorem teardown_stops_timer_but_not_the_check_in_flight
    (es : list event) (cancel : event) (i : nat) (id : Z)
    (r : StatusResponse) (b : BackgroundInfo) :
  let p := run es initial in
  cancel = Unmount \/ cancel = SetPending None ->
  inflight p !! i = Some id ->
  status r = "confirmed" ->
  background r = Some b ->
  truthy (blockchainId b) = true ->
  let p1 := step p cancel in
  let p2 := step p1 (Settle i (Returns r)) in
  (interval p1 = None /\ step p1 Tick = p1) /\
  toasts p2 = toasts p1 ++ [Minted b] /\
  (interval p2 = None /\ step p2 Tick = p2) /\
  inflight p2 = delete i (inflight p) /\
  (mounted p2 = true -> pendingBackgroundId p2 = None).
Proof.
  intros p Hcancel Hin Hst Hbg Hid p1 p2.
  assert (Hp : timer_owned p) by (apply run_owned, timer_owned_initial).
  assert (Hp1 : timer_owned p1) by (apply step_owned, Hp).
  assert (H1 : interval p1 = None /\ inflight p1 = inflight p /\
               (mounted p1 = true -> pendingBackgroundId p1 = None)).
  { subst p1. destruct Hcancel as [-> | ->]; simpl.
    - repeat split. discriminate.
    - split; [apply reset_clears_interval, Hp|].
      destruct (reset_keeps_rest p) as (Hi & _ & Hm & Hpend).
      split; [exact Hi|]. rewrite Hm. exact Hpend. }
  destruct H1 as (Hint1 & Hin1 & Hpend1).
  assert (Hconf : confirmed r = Returns true)
    by (unfold confirmed; rewrite Hst, Hbg, Hid; reflexivity).
  set (q := {| mounted := mounted p1;
               pendingBackgroundId := pendingBackgroundId p1;
               interval := interval p1; inflight := delete i (inflight p);
               toasts := toasts p1 ++ [Minted b] |}).
  assert (Hp2 : p2 = setPendingBackgroundId None q).
  { subst p2. simpl. unfold settle. rewrite Hin1, Hin.
    unfold checkBackgroundStatus_resume. rewrite Hconf, Hbg. reflexivity. }
  assert (Hq : timer_owned q) by (intros k Hk; simpl in Hk; congruence).
  destruct (reset_keeps_rest q) as (Hi2 & Ht2 & Hm2 & Hpend2).
  assert (Hint2 : interval p2 = None)
    by (rewrite Hp2; apply reset_clears_interval, Hq).
  split; [split; [exact Hint1 | simpl; unfold tick; rewrite Hint1; reflexivity]|].
  split; [rewrite Hp2, Ht2; reflexivity|].
  split; [split; [exact Hint2 | simpl; unfold tick; rewrite Hint2; reflexivity]|].
  split; [rewrite Hp2, Hi2; reflexivity|].
  rewrite Hp2, Hm2. exact Hpend2.
Qed.

(** A mint is started, the page is left while the first check is in
    flight, and the confirmation arrives afterwards. *)
Lemma teardown_stops_timer_but_not_the_check_in_flight_witness :
  let p := run [SetPending (Some 42)] initial in
  let p1 := step p Unmount in
  let p2 := step p1 (Settle 0 (Returns Scenarios.confirmed_response)) in
  (interval p1 = None /\ step p1 Tick = p1) /\
  toasts p2 = toasts p1 ++ [Minted Scenarios.minted] /\
  (interval p2 = None /\ step p2 Tick = p2) /\
  inflight p2 = delete 0%nat (inflight p) /\
  (mounted p2 = true -> pendingBackgroundId p2 = None).
Proof.
  apply (teardown_stops_timer_but_not_the_check_in_flight
           [SetPending (Some 42)] Unmount 0 42
           Scenarios.confirmed_response Scenarios.minted);
    auto.
Defined.

(** C1 as stated fails: polling of background 42 starts, the page is
    unmounted while the first status check is in flight, and the response
    to that check, arriving afterwards with status confirmed, is acted
    upon: the success toast is published. *)
Lemma late_confirmation_is_published :
  let p := run [SetPending (Some 42)] initial in
  let p1 := run [Unmount] p in
  let p2 := run [Settle 0 (Returns Scenarios.confirmed_response)] p1 in
  (inflight p = [42] /\ interval p = Some 42 /\ toasts p = []) /\
  (inflight p1 = [42] /\ interval p1 = None /\ toasts p1 = []) /\
  toasts p2 = [Minted Scenarios.minted].
Proof. cbv zeta. repeat apply conj; reflexivity. Qed.

(** The same with a second mint started in between: the late confirmation
    of background 42 also ends the polling of background 43. *)
Example late_confirmation_stops_the_next_poll :
  let p := run [SetPending (Some 42); SetPending (Some 43)] initial in
  let p' := run [Settle 0 (Returns Scenarios.confirmed_response)] p in
  (inflight p = [42; 43] /\ interval p = Some 43) /\
  (toasts p' = [Minted Scenarios.minted] /\
   pendingBackgroundId p' = None /\ interval p' = None).
Proof. cbv zeta. repeat apply conj; reflexivity. Qed.

End CreateBackgroundSpec.

(** * Further properties *)

(** ** The listener registry, beyond subscription counts *)

Module DatabaseEventsProps.

Import Js DatabaseEvents.

Lemma count_occ_remove (c c' : callback) (l : list callback) :
  count_occ Nat.eq_dec (remove c l) c' =
  if Nat.eq_dec c' c then 0%nat else count_occ Nat.eq_dec l c'.
Proof.
  unfold remove. induction l as [|x l IH]; simpl.
  - destruct (Nat.eq_dec c' c); reflexivity.
  - destruct (Nat.eqb_spec x c) as [-> | Hx]; simpl.
    + rewrite IH. destruct (Nat.eq_dec c c') as [<- | Hc].
      * destruct (Nat.eq_dec c c); [reflexivity | congruence].
      * destruct (Nat.eq_dec c' c); [congruence | reflexivity].
    + rewrite IH. destruct (Nat.eq_dec x c') as [<- | Hc];
        destruct (Nat.eq_dec _ c); try congruence; reflexivity.
Qed.

Lemma remove_sublist (c : callback) (l : list callback) :
  sublist (remove c l) l.
Proof.
  unfold remove. induction l as [|x l IH]; simpl; [constructor|].
  destruct (negb (Nat.eqb x c)); [apply sublist_skip | apply sublist_cons];
    exact IH.
Qed.

Lemma remove_absent (c : callback) (l : list callback) :
  ~ In c l -> remove c l = l.
Proof.
  unfold remove. induction l as [|x l IH]; simpl; intros Hn; [reflexivity|].
  destruct (Nat.eqb_spec x c) as [-> | Hx]; simpl.
  - exfalso. apply Hn. left. reflexivity.
  - f_equal. apply IH. intros Hin. apply Hn. right. exact Hin.
Qed.

(** An emit invokes a prefix of the registered callbacks, in registration
    order and each registration once: all of them when it returns, and at
    least the throwing one when it throws.  The same holds for both event
    types. *)
Theorem emit_invokes_a_prefix_in_order {Background W : Type}
    (call : callback -> Background -> W -> completion unit * W)
    (b : Background) (ls : listeners) (w : W) :
  let ra := emitBackgroundAdded call b ls w in
  let ru := emitBackgroundUpdated call b ls w in
  (invoked ra `prefix_of` backgroundAdded ls /\
   (outcome ra = Returns tt -> invoked ra = backgroundAdded ls) /\
   (forall e, outcome ra = Throws e -> invoked ra <> [])) /\
  (invoked ru `prefix_of` backgroundUpdated ls /\
   (outcome ru = Returns tt -> invoked ru = backgroundUpdated ls) /\
   (forall e, outcome ru = Throws e -> invoked ru <> [])).
Proof.
  assert (H : forall l,
    invoked (forEach call l b w []) `prefix_of` l /\
    (outcome (forEach call l b w []) = Returns tt ->
     invoked (forEach call l b w []) = l) /\
    (forall e, outcome (forEach call l b w []) = Throws e ->
               invoked (forEach call l b w []) <> [])).
  { intros l.
    destruct (DatabaseEventsSpec.forEach_invoked call l b w []) as (k & Hk & Hall).
    simpl in Hk. split; [|split].
    - rewrite Hk. exists (drop k l). symmetry. apply take_drop.
    - intros Hr. rewrite Hk. auto.
    - intros e He. destruct l as [|c l]; simpl in *; [discriminate He|].
      destruct (call c b w) as [[[]|e'] w']; simpl.
      + destruct (DatabaseEventsSpec.forEach_invoked call l b w' [c])
          as (k' & Hk' & _).
        rewrite Hk'. discriminate.
      + discriminate. }
  cbv zeta. unfold emitBackgroundAdded, emitBackgroundUpdated.
  split; apply H.
Qed.

(** Unsubscribing removes every registration of the callback and nothing
    else: the other callbacks keep their number of registrations and their
    order, and the listeners of the other event type are untouched. *)
Theorem unsubscribe_removes_exactly_that_callback (c : callback)
    (ls : listeners) :
  (~ In c (backgroundAdded (offBackgroundAdded c ls)) /\
   (forall c', c' <> c ->
      count_occ Nat.eq_dec (backgroundAdded (offBackgroundAdded c ls)) c' =
      count_occ Nat.eq_dec (backgroundAdded ls) c') /\
   sublist (backgroundAdded (offBackgroundAdded c ls)) (backgroundAdded ls) /\
   backgroundUpdated (offBackgroundAdded c ls) = backgroundUpdated ls) /\
  (~ In c (backgroundUpdated (offBackgroundUpdated c ls)) /\
   (forall c', c' <> c ->
      count_occ Nat.eq_dec (backgroundUpdated (offBackgroundUpdated c ls)) c' =
      count_occ Nat.eq_dec (backgroundUpdated ls) c') /\
   sublist (backgroundUpdated (offBackgroundUpdated c ls))
           (backgroundUpdated ls) /\
   backgroundAdded (offBackgroundUpdated c ls) = backgroundAdded ls).
Proof.
  split; simpl; (split; [apply DatabaseEventsSpec.remove_not_in|]);
    (split; [|split; [apply remove_sublist | reflexivity]]);
    intros c' Hne; rewrite count_occ_remove;
    destruct (Nat.eq_dec c' c); congruence.
Qed.

(** Subscribing a callback that is not registered and then calling the
    function the subscription returned restores the registry. *)
Theorem subscribe_then_unsubscribe_restores (c : callback) (ls : listeners) :
  ~ In c (backgroundAdded ls) ->
  ~ In c (backgroundUpdated ls) ->
  snd (onBackgroundAdded c ls) (fst (onBackgroundAdded c ls)) = ls /\
  snd (onBackgroundUpdated c ls) (fst (onBackgroundUpdated c ls)) = ls.
Proof.
  intros Ha Hu. destruct ls as [la lu]; simpl in *.
  unfold offBackgroundAdded, offBackgroundUpdated; simpl.
  rewrite !DatabaseEventsSpec.remove_app, !DatabaseEventsSpec.remove_self,
    !app_nil_r, (remove_absent c la Ha), (remove_absent c lu Hu).
  split; reflexivity.
Qed.

Lemma subscribe_then_unsubscribe_restores_witness :
  let ls := {| backgroundAdded := [1; 2]; backgroundUpdated := [4] |}%nat in
  snd (onBackgroundAdded 3%nat ls) (fst (onBackgroundAdded 3%nat ls)) = ls /\
  snd (onBackgroundUpdated 3%nat ls) (fst (onBackgroundUpdated 3%nat ls)) = ls.
Proof.
  intros ls.
  apply (subscribe_then_unsubscribe_restores 3%nat ls); simpl; lia.
Defined.

(** When the callback was registered before, the function returned by a
    new subscription removes the earlier registration too. *)
Example unsubscribe_takes_earlier_registrations :
  let ls := {| backgroundAdded := [3; 1]; backgroundUpdated := [] |}%nat in
  backgroundAdded (snd (onBackgroundAdded 3%nat ls)
                       (fst (onBackgroundAdded 3%nat ls))) = [1%nat].
Proof. reflexivity. Qed.

End DatabaseEventsProps.

(** ** The REST client, beyond the session claims *)

Module ApiProps.

Import Js Api.

Lemma lower_ascii_idempotent (c : ascii) :
  lower_ascii (lower_ascii c) = lower_ascii c.
Proof.
  destruct c as [[] [] [] [] [] [] [] []]; reflexivity.
Qed.

Lemma toLowerCase_idempotent (s : string) :
  toLowerCase (toLowerCase s) = toLowerCase s.
Proof.
  induction s as [|c s IH]; simpl; [reflexivity|].
  rewrite lower_ascii_idempotent, IH. reflexivity.
Qed.

Section Client.

Context {Store : Type} `{!Storage Store} {N Json : Type}.
Variable srv : Server N Json.
Variable decodeClaims : string -> completion Claims.

Implicit Types (w : World Store N) (a t walletAddress signature : string).

(** *** [getAuthHeaders] *)

(** [getAuthHeaders] reads the store and changes nothing.  The headers
    always name the JSON content type; they carry [Authorization: Bearer
    <token>] when a non-empty token is stored, and no [Authorization]
    entry at all otherwise. *)
Theorem authorization_header_iff_token_stored w :
  exists h,
    getAuthHeaders w = (Returns h, w) /\
    h !! "Content-Type" = Some "application/json" /\
    (forall t, getItem "token" (storage w) = Some t -> t <> "" ->
               h !! "Authorization" = Some ("Bearer " +:+ t)) /\
    (truthy (getItem "token" (storage w)) = false ->
     h !! "Authorization" = None).
Proof.
  exists (auth_headers (storage w)).
  split; [apply ApiSpec.getAuthHeaders_run|].
  unfold auth_headers.
  destruct (getItem "token" (storage w)) as [t|]; simpl.
  - destruct (String.eqb_spec t "") as [-> | Hne]; simpl.
    + repeat split; try reflexivity. intros t' [= <-] Ht. congruence.
    + repeat split; try reflexivity; try discriminate.
      intros t' [= <-] _. apply lookup_insert_eq.
  - repeat split; try reflexivity. intros t' Ht. discriminate Ht.
Qed.

(** *** [loginWithWallet] *)

(** What a login leaves in the store when the store keeps its writes: the
    two keys set after a return, nothing changed after a throw. *)
Lemma loginWithWallet_storage `{!LawfulStorage Store}
    walletAddress signature w :
  match loginWithWallet srv walletAddress signature w with
  | (Returns d, w') =>
      exists tok,
        token d = Some tok /\ tok <> "" /\
        storage w' = setItem "walletAddress" walletAddress
                             (setItem "token" tok (storage w))
  | (Throws _, w') => storage w' = storage w
  end.
Proof.
  unfold loginWithWallet. open_calls.
  destruct (post_login srv _ _ _) as [[[d|]|e] n']; simpl.
  - destruct (token d) as [tok|] eqn:Htok; simpl; [|reflexivity].
    destruct (String.eqb_spec tok "") as [-> | Hne]; simpl; [reflexivity|].
    case_bool_decide as Hst; simpl.
    + exists tok. rewrite Htok. auto.
    + exfalso. apply Hst.
      rewrite getItem_setItem_ne by discriminate. apply getItem_setItem_eq.
  - reflexivity.
  - destruct (Js.response e) as [[st [[[m|]]|]]|]; simpl; try reflexivity.
    destruct (String.eqb m ""); reflexivity.
Qed.

(** The backend's state after a login is the one its handler returned. *)
Lemma loginWithWallet_remote walletAddress signature w :
  remote (snd (loginWithWallet srv walletAddress signature w)) =
  snd (post_login srv (toLowerCase walletAddress) signature (remote w)).
Proof.
  unfold loginWithWallet. open_calls.
  destruct (post_login srv _ _ _) as [[[d|]|e] n']; simpl.
  - destruct (token d) as [tok|]; simpl; [|reflexivity].
    destruct (String.eqb tok ""); simpl; [reflexivity|].
    case_bool_decide; reflexivity.
  - reflexivity.
  - destruct (Js.response e) as [[st [[[m|]]|]]|]; simpl; try reflexivity.
    destruct (String.eqb m ""); reflexivity.
Qed.

(** On a store that keeps its writes, a login returns exactly when the
    backend answered with a body holding a non-empty token; it then
    returns that body, and the store holds the token of the body and the
    address as the caller gave it. *)
Theorem login_returns_iff_token_received `{!LawfulStorage Store}
    walletAddress signature w (d : LoginData) :
  (fst (loginWithWallet srv walletAddress signature w) = Returns d <->
   fst (post_login srv (toLowerCase walletAddress) signature (remote w))
     = Resolved (Some d) /\
   truthy (token d) = true) /\
  (fst (loginWithWallet srv walletAddress signature w) = Returns d ->
   getItem "token" (storage (snd (loginWithWallet srv walletAddress signature w)))
     = token d /\
   getItem "walletAddress"
     (storage (snd (loginWithWallet srv walletAddress signature w)))
     = Some walletAddress).
Proof.
  split.
  - split.
    + intros Hret.
      destruct (loginWithWallet srv walletAddress signature w) as [r w'] eqn:Hl.
      simpl in Hret. subst r.
      destruct (ApiSpec.loginWithWallet_returns _ _ _ _ _ _ Hl)
        as (tok & n' & Hans & _ & Ht & _).
      rewrite Hans. auto.
    + intros [Hans Ht]. unfold loginWithWallet. open_calls.
      destruct (post_login srv _ _ _) as [ans n']. simpl in Hans. subst ans.
      simpl. destruct (token d) as [tok|]; simpl in *; [|discriminate].
      destruct (String.eqb tok ""); simpl in *; [discriminate|].
      case_bool_decide as Hst; simpl; [reflexivity|].
      exfalso. apply Hst.
      rewrite getItem_setItem_ne by discriminate. apply getItem_setItem_eq.
  - intros Hret.
    destruct (loginWithWallet srv walletAddress signature w) as [r w'] eqn:Hl.
    simpl in *. subst r.
    apply (ApiSpec.loginWithWallet_session _ _ _ _ _ _ Hl).
Qed.

(** A rejected login throws and writes nothing.  The message is the
    backend's [error] text behind "Login failed: " when the rejection
    carries one, and the rejection's own message (or "Unknown error")
    behind "Failed to login with wallet: " otherwise. *)
Theorem login_rejection_is_reported walletAddress signature w (e : Error) :
  fst (post_login srv (toLowerCase walletAddress) signature (remote w))
    = Rejected e ->
  fst (loginWithWallet srv walletAddress signature w) =
    Throws (new_Error
              (if truthy (response_error e)
               then "Login failed: " +:+ or_else (response_error e) ""
               else "Failed to login with wallet: "
                    +:+ or_else (Js.message e) "Unknown error")) /\
  storage (snd (loginWithWallet srv walletAddress signature w)) = storage w.
Proof.
  intros Hans. unfold loginWithWallet. open_calls.
  destruct (post_login srv _ _ _) as [ans n']. simpl in Hans. subst ans.
  unfold response_error. simpl.
  destruct (Js.response e) as [[st [[[m|]]|]]|]; simpl; auto.
  destruct (String.eqb m ""); simpl; auto.
Qed.

(** The check after the write, on any store: when the store does not read
    the token back, the login throws although the backend accepted it and
    both writes have been issued. *)
Theorem login_verifies_the_stored_token walletAddress signature w
    (d : LoginData) (tok : string) :
  fst (post_login srv (toLowerCase walletAddress) signature (remote w))
    = Resolved (Some d) ->
  token d = Some tok -> tok <> "" ->
  getItem "token" (setItem "walletAddress" walletAddress
                           (setItem "token" tok (storage w))) <> Some tok ->
  fst (loginWithWallet srv walletAddress signature w) =
    Throws (new_Error ("Failed to login with wallet: "
                       +:+ "Failed to store authentication token")) /\
  storage (snd (loginWithWallet srv walletAddress signature w)) =
    setItem "walletAddress" walletAddress (setItem "token" tok (storage w)).
Proof.
  intros Hans Htok Hne Hlost. unfold loginWithWallet. open_calls.
  destruct (post_login srv _ _ _) as [ans n']. simpl in Hans. subst ans.
  simpl. rewrite Htok. simpl. rewrite (ApiSpec.truthy_nonempty tok Hne). simpl.
  case_bool_decide as Hst; [contradiction|]. simpl. auto.
Qed.

(** The address is canonical on the wire: two addresses that differ only
    in the case of their letters send the same login request and bring the
    backend to the same state; lower-casing twice is lower-casing once. *)
Theorem login_request_ignores_letter_case a a' signature w :
  toLowerCase a = toLowerCase a' ->
  requests (snd (loginWithWallet srv a signature w)) =
    requests (snd (loginWithWallet srv a' signature w)) /\
  remote (snd (loginWithWallet srv a signature w)) =
    remote (snd (loginWithWallet srv a' signature w)) /\
  requests (snd (loginWithWallet srv (toLowerCase a) signature w)) =
    requests (snd (loginWithWallet srv a signature w)).
Proof.
  intros Hcase.
  rewrite !ApiSpec.loginWithWallet_requests, !loginWithWallet_remote,
    toLowerCase_idempotent, Hcase.
  auto.
Qed.

(** *** [logout] and [checkAuthState] *)

(** After [logout] the check reports "not authenticated" at once: no
    request is sent, neither by [logout] nor by the check. *)
Theorem logout_then_check_sends_nothing `{!LawfulStorage Store} w :
  let w1 := snd (logout w) in
  fst (logout w) = Returns tt /\
  requests w1 = requests w /\
  getItem "walletAddress" (storage w1) = None /\
  checkAuthState srv decodeClaims w1 = (Returns not_authenticated, w1).
Proof.
  cbv zeta.
  destruct (ApiSpec.logout_unauthenticated decodeClaims w) as (Hr & Hreq & He).
  split; [exact Hr|]. split; [exact Hreq|].
  split; [unfold logout; open_calls; simpl; apply getItem_removeItem_eq|].
  rewrite ApiSpec.checkAuthState_by_evaluate.
  replace (clock (snd (logout w))) with (clock w) by reflexivity.
  rewrite He. reflexivity.
Qed.

(** The requests of the validation block: the test request, then at most
    one login. *)
Lemma validateRemotely_issued a w :
  exists issued,
    requests (snd (validateRemotely srv a w)) = requests w ++ issued /\
    (issued = [GetMe (auth_headers (storage w))] \/
     issued = [GetMe (auth_headers (storage w));
               PostLogin (toLowerCase a) (mock_signature a)]).
Proof.
  rewrite ApiSpec.validateRemotely_run. cbv zeta.
  destruct (fst (get_me srv _ _)) as [body|e]; simpl; [eauto|].
  destruct (is_401 e); [|simpl; eauto].
  pose proof (ApiSpec.loginWithWallet_requests srv a (mock_signature a)
    (answered (GetMe (auth_headers (storage w)))
              (snd (get_me srv (auth_headers (storage w)) (remote w))) w)) as Hr.
  destruct (loginWithWallet srv _ _ _) as [[r|e'] w2]; simpl in *;
    rewrite Hr, <- app_assoc; eauto.
Qed.

(** [checkAuthState] never throws, and it sends at most three requests:
    at most one test request and at most two logins.  A second login is
    sent only for a session that was about to expire, and none at all for
    an unauthenticated one. *)
Theorem check_returns_within_three_requests w :
  exists status issued,
    fst (checkAuthState srv decodeClaims w) = Returns status /\
    requests (snd (checkAuthState srv decodeClaims w)) = requests w ++ issued /\
    (count_probes issued <= 1)%nat /\
    (count_logins issued <= 2)%nat /\
    (length issued <= 3)%nat /\
    (count_logins issued = 2%nat ->
     evaluate decodeClaims (storage w) (clock w) = ExpiringSoon) /\
    (evaluate decodeClaims (storage w) (clock w) = Unauthenticated ->
     issued = []).
Proof.
  rewrite ApiSpec.checkAuthState_by_evaluate.
  destruct (evaluate decodeClaims (storage w) (clock w)) eqn:He;
    destruct (getItem "walletAddress" (storage w)) as [a|];
    try (exists not_authenticated, []; rewrite app_nil_r;
         repeat split; simpl; auto; discriminate).
  - destruct (ApiSpec.validateRemotely_returns srv a w) as [status Hs].
    destruct (validateRemotely_issued a w) as (issued & Hreq & [-> | ->]);
      exists status; eexists; (split; [exact Hs|]); (split; [exact Hreq|]);
      repeat split; simpl; auto; discriminate.
  - pose proof (ApiSpec.loginWithWallet_requests srv a (mock_signature a) w)
      as Hr.
    destruct (loginWithWallet srv a (mock_signature a) w) as [[r|e'] w2];
      simpl in Hr.
    + exists refreshed, [PostLogin (toLowerCase a) (mock_signature a)].
      repeat split; simpl; auto; discriminate.
    + destruct (ApiSpec.validateRemotely_returns srv a w2) as [status Hs].
      destruct (validateRemotely_issued a w2) as (issued & Hreq & [-> | ->]);
        exists status; eexists;
        (split; [exact Hs|]);
        (split; [rewrite Hreq, Hr, <- app_assoc; reflexivity|]);
        repeat split; simpl; auto; discriminate.
Qed.

(** A login the backend accepts returns, on a store that keeps its
    writes. *)
Lemma loginWithWallet_accepted `{!LawfulStorage Store}
    walletAddress signature w (d : LoginData) :
  fst (post_login srv (toLowerCase walletAddress) signature (remote w))
    = Resolved (Some d) ->
  truthy (token d) = true ->
  exists w',
    loginWithWallet srv walletAddress signature w = (Returns d, w').
Proof.
  intros Hans Ht. unfold loginWithWallet. open_calls.
  destruct (post_login srv _ _ _) as [ans n']. simpl in Hans. subst ans.
  simpl. destruct (token d) as [tok|]; simpl in *; [|discriminate].
  destruct (String.eqb tok ""); simpl in *; [discriminate|].
  case_bool_decide as Hst; simpl; [eauto|].
  exfalso. apply Hst.
  rewrite getItem_setItem_ne by discriminate. apply getItem_setItem_eq.
Qed.

(** For a session about to expire, a login the backend accepts ends the
    check: the result is positive, the login is the only request sent (no
    test request follows), and the store holds the new token. *)
Theorem expiring_session_is_refreshed_by_one_login `{!LawfulStorage Store}
    w a (d : LoginData) :
  evaluate decodeClaims (storage w) (clock w) = ExpiringSoon ->
  getItem "walletAddress" (storage w) = Some a ->
  fst (post_login srv (toLowerCase a) (mock_signature a) (remote w))
    = Resolved (Some d) ->
  truthy (token d) = true ->
  fst (checkAuthState srv decodeClaims w) = Returns refreshed /\
  requests (snd (checkAuthState srv decodeClaims w)) =
    requests w ++ [PostLogin (toLowerCase a) (mock_signature a)] /\
  getItem "token" (storage (snd (checkAuthState srv decodeClaims w)))
    = token d /\
  getItem "walletAddress" (storage (snd (checkAuthState srv decodeClaims w)))
    = Some a.
Proof.
  intros He Ha Hans Ht.
  rewrite ApiSpec.checkAuthState_by_evaluate, He, Ha.
  destruct (loginWithWallet_accepted a (mock_signature a) w d Hans Ht)
    as [w' Hl].
  rewrite Hl. simpl.
  destruct (ApiSpec.loginWithWallet_session srv _ _ _ _ _ Hl) as [Htok Hw].
  destruct (ApiSpec.loginWithWallet_returns srv _ _ _ _ _ Hl)
    as (tok & n' & _ & _ & _ & ->).
  simpl in *. auto.
Qed.

(** A refresh that the backend rejects is not reported.  For a session
    about to expire whose login is rejected, the check goes on to the test
    request, still with the old token, and reports what that request says:
    when it is accepted with a body that names the user, the session is
    reported as authenticated. *)
Theorem rejected_refresh_falls_through_to_the_probe w a (e : Error)
    (n' : N) (body : option MeData) :
  evaluate decodeClaims (storage w) (clock w) = ExpiringSoon ->
  getItem "walletAddress" (storage w) = Some a ->
  post_login srv (toLowerCase a) (mock_signature a) (remote w)
    = (Rejected e, n') ->
  fst (get_me srv (auth_headers (storage w)) n') = Resolved body ->
  fst (checkAuthState srv decodeClaims w) = Returns (validation_of body) /\
  requests (snd (checkAuthState srv decodeClaims w)) =
    requests w ++ [PostLogin (toLowerCase a) (mock_signature a);
                   GetMe (auth_headers (storage w))] /\
  storage (snd (checkAuthState srv decodeClaims w)) = storage w.
Proof.
  intros He Ha Hlogin Hme.
  rewrite ApiSpec.checkAuthState_by_evaluate, He, Ha.
  assert (Hl : exists err,
            loginWithWallet srv a (mock_signature a) w =
            (Throws err,
             answered (PostLogin (toLowerCase a) (mock_signature a)) n' w)).
  { unfold loginWithWallet. open_calls. rewrite Hlogin. simpl.
    destruct (Js.response e) as [[st [[[m|]]|]]|]; simpl; eauto.
    destruct (String.eqb m ""); eauto. }
  destruct Hl as [err ->].
  rewrite ApiSpec.validateRemotely_run. cbv zeta. simpl.
  rewrite Hme. simpl. rewrite <- app_assoc. auto.
Qed.

(** What the validation block leaves in the store. *)
Lemma validateRemotely_storage `{!LawfulStorage Store} a w :
  match validateRemotely srv a w with
  | (Returns status, w') =>
      storage w' = storage w \/
      (isAuthenticated status = true /\
       exists tok, tok <> "" /\
         storage w' = setItem "walletAddress" a
                              (setItem "token" tok (storage w)))
  | (Throws _, w') => storage w' = storage w
  end.
Proof.
  rewrite ApiSpec.validateRemotely_run. cbv zeta.
  destruct (fst (get_me srv _ _)) as [body|e]; simpl; [auto|].
  destruct (is_401 e); [|simpl; auto].
  pose proof (loginWithWallet_storage a (mock_signature a)
    (answered (GetMe (auth_headers (storage w)))
              (snd (get_me srv (auth_headers (storage w)) (remote w))) w)) as Hs.
  destruct (loginWithWallet srv _ _ _) as [[r|e'] w2]; simpl in *.
  - destruct Hs as (tok & _ & Hne & ->). right. eauto.
  - left. exact Hs.
Qed.

(** [checkAuthState] never logs out.  On a store that keeps its writes,
    the stored wallet address is the same before and after, a stored token
    is still stored afterwards (the old one or a fresh one), and a check
    that reports "not authenticated" has not written to the store. *)
Theorem check_never_clears_the_session `{!LawfulStorage Store} w :
  let status := fst (checkAuthState srv decodeClaims w) in
  let w' := snd (checkAuthState srv decodeClaims w) in
  getItem "walletAddress" (storage w') = getItem "walletAddress" (storage w) /\
  (is_Some (getItem "token" (storage w)) ->
   is_Some (getItem "token" (storage w'))) /\
  (forall s, status = Returns s -> isAuthenticated s = false ->
             storage w' = storage w).
Proof.
  cbv zeta.
  assert (Hset : forall a tok st,
            getItem "walletAddress" st = Some a ->
            getItem "walletAddress"
              (setItem "walletAddress" a (setItem "token" tok st)) =
              getItem "walletAddress" st /\
            is_Some (getItem "token"
              (setItem "walletAddress" a (setItem "token" tok st)))).
  { intros a tok st Ha. rewrite getItem_setItem_eq, Ha.
    rewrite getItem_setItem_ne by discriminate.
    rewrite getItem_setItem_eq. eauto. }
  rewrite ApiSpec.checkAuthState_by_evaluate.
  destruct (evaluate decodeClaims (storage w) (clock w)) eqn:He;
    destruct (getItem "walletAddress" (storage w)) as [a|] eqn:Ha;
    simpl; try (rewrite ?Ha; repeat split; auto; fail).
  - pose proof (validateRemotely_storage a w) as Hs.
    destruct (validateRemotely srv a w) as [[s|e] w']; simpl in *.
    + destruct Hs as [-> | (Hauth & tok & _ & ->)].
      * rewrite Ha. repeat split; auto.
      * destruct (Hset a tok (storage w) Ha) as [Hw Htok].
        rewrite Hw, Ha. repeat split; auto.
        intros s' [= <-] Hf. congruence.
    + rewrite Hs, Ha. repeat split; auto; discriminate.
  - pose proof (loginWithWallet_storage a (mock_signature a) w) as Hl.
    destruct (loginWithWallet srv a (mock_signature a) w) as [[r|e'] w2];
      simpl in *.
    + destruct Hl as (tok & _ & _ & ->).
      destruct (Hset a tok (storage w) Ha) as [Hw Htok].
      rewrite Hw, Ha. repeat split; auto.
      intros s' [= <-] Hf. discriminate Hf.
    + pose proof (validateRemotely_storage a w2) as Hs.
      destruct (validateRemotely srv a w2) as [[s|e] w']; simpl in *.
      * destruct Hs as [-> | (Hauth & tok & _ & ->)]; rewrite Hl.
        -- rewrite Ha. repeat split; auto.
        -- destruct (Hset a tok (storage w) Ha) as [Hw Htok].
           rewrite Hw, Ha. repeat split; auto.
           intros s' [= <-] Hf. congruence.
      * rewrite Hs, Hl, Ha. repeat split; auto; discriminate.
Qed.

(** *** Gift cards *)

(** A transfer and a claim each send exactly one request, carrying the
    headers built from the store, and write nothing to the store.  A
    claim never throws; a transfer that the backend accepts returns the
    body as it came. *)
Theorem gift_card_calls_send_one_request giftCardId other w :
  (requests (snd (transferGiftCard srv giftCardId other w)) =
     requests w ++ [PostTransfer giftCardId other (auth_headers (storage w))] /\
   storage (snd (transferGiftCard srv giftCardId other w)) = storage w /\
   (forall body,
      fst (post_transfer srv giftCardId other (auth_headers (storage w))
             (remote w)) = Resolved body ->
      fst (transferGiftCard srv giftCardId other w) = Returns body)) /\
  (requests (snd (claimGiftCard srv giftCardId other w)) =
     requests w ++ [PostClaim giftCardId other (auth_headers (storage w))] /\
   storage (snd (claimGiftCard srv giftCardId other w)) = storage w /\
   exists result,
     fst (claimGiftCard srv giftCardId other w) = Returns result).
Proof.
  unfold transferGiftCard, claimGiftCard, try_catch, bind.
  rewrite ApiSpec.getAuthHeaders_run. unfold axios, throw, ret.
  split.
  - destruct (post_transfer srv _ _ _ _) as [[body|e] n']; simpl;
      repeat split; auto; intros body' [= <-]; reflexivity.
  - destruct (post_claim srv _ _ _ _) as [[[d|]|e] n']; simpl;
      repeat split; eauto.
Qed.

End Client.

#[local] Existing Instance ApiSpec.gmap_storage_lawful.

Lemma login_returns_iff_token_received_witness :
  let srv := Scenarios.server (Scenarios.login_ok "tok") Scenarios.me_ok
               Scenarios.unreachable Scenarios.unreachable in
  let w := Scenarios.world_with (Scenarios.session "old" "0xAbC") in
  let d := {| token := Some "tok"; user := Some "user" |} in
  fst (loginWithWallet srv "0xAbC" "sig" w) = Returns d /\
  getItem "token" (storage (snd (loginWithWallet srv "0xAbC" "sig" w)))
    = Some "tok" /\
  getItem "walletAddress" (storage (snd (loginWithWallet srv "0xAbC" "sig" w)))
    = Some "0xAbC".
Proof.
  intros srv w d.
  destruct (login_returns_iff_token_received srv "0xAbC" "sig" w d)
    as [Hiff Hstore].
  assert (Hret : fst (loginWithWallet srv "0xAbC" "sig" w) = Returns d)
    by (apply Hiff; split; reflexivity).
  split; [exact Hret | exact (Hstore Hret)].
Defined.

Lemma login_rejection_is_reported_witness :
  let srv := Scenarios.server
               (Rejected (Scenarios.http_error 403 "address is blocked"))
               Scenarios.me_ok Scenarios.unreachable Scenarios.unreachable in
  let w := Scenarios.world_with (Scenarios.session "old" "0xAbC") in
  fst (loginWithWallet srv "0xAbC" "sig" w) =
    Throws (new_Error "Login failed: address is blocked") /\
  storage (snd (loginWithWallet srv "0xAbC" "sig" w)) = storage w.
Proof.
  intros srv w.
  exact (login_rejection_is_reported srv "0xAbC" "sig" w
           (Scenarios.http_error 403 "address is blocked") eq_refl).
Defined.

(** A rejection without a body, such as a transport failure. *)
Example login_unreachable_is_reported :
  let srv := Scenarios.server Scenarios.unreachable Scenarios.me_ok
               Scenarios.unreachable Scenarios.unreachable in
  fst (loginWithWallet srv "0xAbC" "sig" (Scenarios.world_with ∅)) =
    Throws (new_Error "Failed to login with wallet: Network Error").
Proof. reflexivity. Qed.

Lemma login_verifies_the_stored_token_witness :
  let srv := Scenarios.server (Scenarios.login_ok "tok") Scenarios.me_ok
               Scenarios.unreachable Scenarios.unreachable in
  let w := Scenarios.world_with ∅ in
  fst (@loginWithWallet _ readonly_storage _ _ srv "0xAbC" "sig" w) =
    Throws (new_Error ("Failed to login with wallet: "
                       +:+ "Failed to store authentication token")) /\
  storage (snd (@loginWithWallet _ readonly_storage _ _ srv "0xAbC" "sig" w))
    = ∅.
Proof.
  intros srv w.
  apply (@login_verifies_the_stored_token _ readonly_storage _ _ srv
           "0xAbC" "sig" w {| token := Some "tok"; user := Some "user" |}
           "tok");
    try reflexivity; discriminate.
Defined.

Lemma login_request_ignores_letter_case_witness :
  let srv := Scenarios.server (Scenarios.login_ok "tok") Scenarios.me_ok
               Scenarios.unreachable Scenarios.unreachable in
  let w := Scenarios.world_with ∅ in
  requests (snd (loginWithWallet srv "0xAbC" "sig" w)) =
    requests (snd (loginWithWallet srv "0XABC" "sig" w)) /\
  remote (snd (loginWithWallet srv "0xAbC" "sig" w)) =
    remote (snd (loginWithWallet srv "0XABC" "sig" w)) /\
  requests (snd (loginWithWallet srv (toLowerCase "0xAbC") "sig" w)) =
    requests (snd (loginWithWallet srv "0xAbC" "sig" w)).
Proof.
  intros srv w.
  exact (login_request_ignores_letter_case srv "0xAbC" "0XABC" "sig" w
           eq_refl).
Defined.

Lemma logout_then_check_sends_nothing_witness :
  let srv := Scenarios.server (Scenarios.login_ok "tok") Scenarios.me_ok
               Scenarios.unreachable Scenarios.unreachable in
  let w := Scenarios.world_with (Scenarios.session "tok" "0xAbC") in
  let w1 := snd (logout w) in
  fst (logout w) = Returns tt /\
  requests w1 = requests w /\
  getItem "walletAddress" (storage w1) = None /\
  checkAuthState srv Scenarios.decodeClaims w1 = (Returns not_authenticated, w1).
Proof.
  intros srv w.
  exact (logout_then_check_sends_nothing srv Scenarios.decodeClaims w).
Defined.

(** A token with five minutes left, and a backend that accepts the login. *)
Lemma expiring_session_is_refreshed_by_one_login_witness :
  let srv := Scenarios.server (Scenarios.login_ok "fresh") Scenarios.me_ok
               Scenarios.unreachable Scenarios.unreachable in
  let t := Scenarios.jwt "eyJleHAiOjE3MDAwMDA1NDB9" in
  let w := Scenarios.world_with (Scenarios.session t "0xAbC") in
  let w' := snd (checkAuthState srv Scenarios.decodeClaims w) in
  fst (checkAuthState srv Scenarios.decodeClaims w) = Returns refreshed /\
  requests w' =
    requests w ++ [PostLogin (toLowerCase "0xAbC") (mock_signature "0xAbC")] /\
  getItem "token" (storage w') = Some "fresh" /\
  getItem "walletAddress" (storage w') = Some "0xAbC".
Proof.
  intros srv t w.
  apply (expiring_session_is_refreshed_by_one_login srv
           Scenarios.decodeClaims w "0xAbC"
           {| token := Some "fresh"; user := Some "user" |});
    reflexivity.
Defined.

(** Five minutes left, a backend that rejects logins and accepts the
    token nevertheless. *)
Lemma rejected_refresh_falls_through_to_the_probe_witness :
  let srv := Scenarios.server
               (Rejected (Scenarios.http_error 500 "database unavailable"))
               Scenarios.me_ok Scenarios.unreachable Scenarios.unreachable in
  let t := Scenarios.jwt "eyJleHAiOjE3MDAwMDA1NDB9" in
  let w := Scenarios.world_with (Scenarios.session t "0xAbC") in
  fst (checkAuthState srv Scenarios.decodeClaims w) =
    Returns {| isAuthenticated := true;
               message := "Authentication validated successfully" |} /\
  requests (snd (checkAuthState srv Scenarios.decodeClaims w)) =
    requests w ++ [PostLogin (toLowerCase "0xAbC") (mock_signature "0xAbC");
                   GetMe (auth_headers (storage w))] /\
  storage (snd (checkAuthState srv Scenarios.decodeClaims w)) = storage w.
Proof.
  intros srv t w.
  apply (rejected_refresh_falls_through_to_the_probe srv
           Scenarios.decodeClaims w "0xAbC"
           (Scenarios.http_error 500 "database unavailable") tt
           (Some {| me_user := true; me_walletAddress := None |}));
    reflexivity.
Defined.

Lemma check_never_clears_the_session_witness :
  let srv := Scenarios.server Scenarios.unreachable
               (Rejected (Scenarios.http_error 401 "jwt expired"))
               Scenarios.unreachable Scenarios.unreachable in
  let t := Scenarios.jwt "eyJleHAiOjE3MDAwMDA2NjB9" in
  let w := Scenarios.world_with (Scenarios.session t "0xAbC") in
  let status := fst (checkAuthState srv Scenarios.decodeClaims w) in
  let w' := snd (checkAuthState srv Scenarios.decodeClaims w) in
  getItem "walletAddress" (storage w') = getItem "walletAddress" (storage w) /\
  (is_Some (getItem "token" (storage w)) ->
   is_Some (getItem "token" (storage w'))) /\
  (forall s, status = Returns s -> isAuthenticated s = false ->
             storage w' = storage w).
Proof.
  intros srv t w.
  exact (check_never_clears_the_session srv Scenarios.decodeClaims w).
Defined.

(** The session above: the test request is rejected with 401, the login
    cannot reach the backend, and the expired token stays in the store. *)
Example rejected_session_keeps_its_token :
  let srv := Scenarios.server Scenarios.unreachable
               (Rejected (Scenarios.http_error 401 "jwt expired"))
               Scenarios.unreachable Scenarios.unreachable in
  let t := Scenarios.jwt "eyJleHAiOjE3MDAwMDA2NjB9" in
  let w := Scenarios.world_with (Scenarios.session t "0xAbC") in
  isAuthenticated <$> (match fst (checkAuthState srv Scenarios.decodeClaims w)
                       with Returns s => Some s | Throws _ => None end)
    = Some false /\
  storage (snd (checkAuthState srv Scenarios.decodeClaims w)) !! "token"
    = Some t.
Proof. cbv zeta. split; reflexivity. Qed.

End ApiProps.

(** ** The polling effect, over whole runs of the page *)

Module CreateBackgroundProps.

Import Js CreateBackground.

(** The interval is determined by the rest of the page: it is live, for
    the pending id, exactly while the page is mounted and the pending id
    is truthy; and only truthy ids are ever checked. *)
Local Abbreviation timer_follows_state p :=
  (interval p =
     (if mounted p && truthy_id (pendingBackgroundId p)
      then pendingBackgroundId p else None) /\
   Forall (fun id => id <> 0) (inflight p)).

Lemma setPendingBackgroundId_follows (v : option Z) (p : Page) :
  timer_follows_state p -> timer_follows_state (setPendingBackgroundId v p).
Proof.
  intros [Hi Hf]. unfold setPendingBackgroundId.
  destruct (mounted p) eqn:Hm; simpl; [|rewrite Hm; auto].
  case_bool_decide as Hv; [rewrite Hm; auto|].
  unfold effect, cleanup; simpl.
  destruct v as [n|]; simpl; [|auto].
  destruct (n =? 0) eqn:Hn; simpl; [rewrite Hn; auto|].
  rewrite Hn. simpl. split; [reflexivity|].
  apply Forall_app. split; [exact Hf|].
  constructor; [|constructor]. apply Z.eqb_neq. exact Hn.
Qed.

Lemma resume_follows (r : completion StatusResponse) (p : Page) :
  timer_follows_state p -> timer_follows_state (checkBackgroundStatus_resume r p).
Proof.
  intros Hp. unfold checkBackgroundStatus_resume.
  destruct r as [response|e]; [|exact Hp].
  destruct (confirmed response) as [[|]|e]; [| |exact Hp].
  - destruct (background response); [|exact Hp].
    apply setPendingBackgroundId_follows. exact Hp.
  - destruct (String.eqb _ _); [|exact Hp].
    apply setPendingBackgroundId_follows. exact Hp.
Qed.

Lemma step_follows (p : Page) (e : event) :
  timer_follows_state p -> timer_follows_state (step p e).
Proof.
  intros [Hi Hf]. destruct e as [v| |i r|]; simpl.
  - apply setPendingBackgroundId_follows. auto.
  - unfold tick. destruct (interval p) as [id|] eqn:Hint;
      [|split; [rewrite Hint; exact Hi | exact Hf]].
    unfold checkBackgroundStatus_call; simpl.
    split; [rewrite Hint; exact Hi|].
    apply Forall_app. split; [exact Hf|]. constructor; [|constructor].
    destruct (mounted p); simpl in Hi; [|discriminate].
    destruct (pendingBackgroundId p) as [n|]; simpl in Hi; [|discriminate].
    destruct (n =? 0) eqn:Hn; simpl in Hi; [discriminate|].
    injection Hi as ->. apply Z.eqb_neq. exact Hn.
  - unfold settle. destruct (inflight p !! i); [|auto].
    apply resume_follows. simpl. split; [exact Hi|].
    apply Forall_delete. exact Hf.
  - unfold unmount, cleanup. simpl. auto.
Qed.

Lemma run_follows (es : list event) (p : Page) :
  timer_follows_state p -> timer_follows_state (run es p).
Proof.
  revert p. induction es as [|e es IH]; intros p Hp; simpl; [exact Hp|].
  apply IH, step_follows, Hp.
Qed.

Lemma interval_follows_aux (es : list event) :
  timer_follows_state (run es initial).
Proof. apply run_follows. simpl. auto. Qed.

(** Whatever happened to the page since it was mounted, its interval is
    live exactly while the page is mounted and holds a pending id other
    than [0], and it then polls that id; every check in flight is for an
    id other than [0]. *)
Theorem interval_is_live_exactly_while_pending (es : list event) :
  let p := run es initial in
  interval p =
    (if mounted p && truthy_id (pendingBackgroundId p)
     then pendingBackgroundId p else None) /\
  Forall (fun id => id <> 0) (inflight p).
Proof.
  cbv zeta. apply run_follows. simpl. auto.
Qed.

(** Starting the polling of an id twice in a row is starting it once: the
    second call finds the state it asks for and does nothing, so there is
    one interval and one initial check. *)
Theorem starting_twice_is_starting_once (v : option Z) (p : Page) :
  step (step p (SetPending v)) (SetPending v) = step p (SetPending v).
Proof.
  simpl. unfold setPendingBackgroundId at 1.
  destruct (mounted (setPendingBackgroundId v p)) eqn:Hm; simpl; [|reflexivity].
  case_bool_decide as Hv; [reflexivity|].
  exfalso. apply Hv. unfold setPendingBackgroundId in *.
  destruct (mounted p) eqn:Hmp; simpl in *; [|congruence].
  case_bool_decide as Hv'; [exact Hv'|].
  unfold effect, cleanup; simpl.
  destruct v as [n|]; simpl; [|reflexivity].
  destruct (n =? 0); reflexivity.
Qed.

Example start_twice :
  let p := run [SetPending (Some 42); SetPending (Some 42)] initial in
  interval p = Some 42 /\ inflight p = [42].
Proof. split; reflexivity. Qed.

(** A background whose id is [0] is never polled: asking for it leaves no
    interval and issues no check. *)
Theorem id_zero_is_never_polled (es : list event) :
  let p := run es initial in
  let q := step p (SetPending (Some 0)) in
  interval q = None /\ inflight q = inflight p /\ toasts q = toasts p.
Proof.
  cbv zeta.
  destruct (interval_follows_aux es) as [Hi _].
  simpl. unfold setPendingBackgroundId.
  destruct (mounted (run es initial)) eqn:Hm; simpl in *; [|auto].
  case_bool_decide as Hv; simpl; [|auto].
  rewrite <- Hv in Hi. simpl in Hi. auto.
Qed.

(** On a mounted page, an answer that is final ends the polling, whichever
    check it answers (also one started for an earlier id): one toast is
    published, the pending id is reset, the interval is cleared and later
    ticks do nothing.  Final answers are "failed", and "confirmed" with a
    blockchain id. *)
Theorem final_answer_ends_polling (es : list event) (i : nat) (id : Z)
    (r : StatusResponse) (t : toast) :
  let p := run es initial in
  mounted p = true ->
  inflight p !! i = Some id ->
  (status r = "failed" /\ t = TransactionFailed) \/
  (exists b, status r = "confirmed" /\ background r = Some b /\
             truthy (blockchainId b) = true /\ t = Minted b) ->
  let q := step p (Settle i (Returns r)) in
  toasts q = toasts p ++ [t] /\
  pendingBackgroundId q = None /\
  interval q = None /\
  inflight q = delete i (inflight p) /\
  step q Tick = q.
Proof.
  intros p Hm Hin Hfinal q.
  assert (Hp : timer_owned p)
    by (apply CreateBackgroundSpec.run_owned,
          CreateBackgroundSpec.timer_owned_initial).
  set (p' := {| mounted := mounted p;
                pendingBackgroundId := pendingBackgroundId p;
                interval := interval p; inflight := delete i (inflight p);
                toasts := toasts p |}).
  assert (Hq : q = setPendingBackgroundId None (publish t p')).
  { subst q. simpl. unfold settle. rewrite Hin.
    unfold checkBackgroundStatus_resume, confirmed.
    destruct Hfinal as [[Hst ->] | (b & Hst & Hb & Hid & ->)]; rewrite Hst.
    - reflexivity.
    - simpl. rewrite Hb, Hid. reflexivity. }
  assert (Hown : timer_owned (publish t p')) by exact Hp.
  destruct (CreateBackgroundSpec.reset_keeps_rest (publish t p'))
    as (Hi & Ht & _ & Hpend).
  pose proof (CreateBackgroundSpec.reset_clears_interval _ Hown) as Hint.
  rewrite Hq. split; [rewrite Ht; reflexivity|].
  split; [apply Hpend; exact Hm|].
  split; [exact Hint|].
  split; [rewrite Hi; reflexivity|].
  simpl. unfold tick. rewrite Hint. reflexivity.
Qed.

Lemma final_answer_ends_polling_witness :
  let p := run [SetPending (Some 42); Tick] initial in
  let r := {| status := "failed"; background := None |} in
  let q := step p (Settle 1 (Returns r)) in
  toasts q = toasts p ++ [TransactionFailed] /\
  pendingBackgroundId q = None /\
  interval q = None /\
  inflight q = delete 1%nat (inflight p) /\
  step q Tick = q.
Proof.
  apply (final_answer_ends_polling [SetPending (Some 42); Tick] 1 42
           {| status := "failed"; background := None |} TransactionFailed);
    auto.
Defined.

(** Every other outcome of a check leaves the page as it is, apart from
    the check no longer being in flight, so the polling goes on: a status
    request that failed, a status other than "failed" and "confirmed", and
    "confirmed" without a blockchain id or without a background. *)
Theorem other_answers_keep_polling (p : Page) (i : nat) (id : Z)
    (r : completion StatusResponse) :
  inflight p !! i = Some id ->
  (forall response, r = Returns response ->
     status response <> "failed" /\
     (status response = "confirmed" ->
      forall b, background response = Some b ->
                truthy (blockchainId b) = false)) ->
  step p (Settle i r) =
    {| mounted := mounted p; pendingBackgroundId := pendingBackgroundId p;
       interval := interval p; inflight := delete i (inflight p);
       toasts := toasts p |}.
Proof.
  intros Hin Hother. simpl. unfold settle. rewrite Hin.
  unfold checkBackgroundStatus_resume.
  destruct r as [response|e]; [|reflexivity].
  destruct (Hother response eq_refl) as [Hnf Hc].
  apply String.eqb_neq in Hnf.
  unfold confirmed.
  destruct (String.eqb_spec (status response) "confirmed") as [Hst|Hst].
  - destruct (background response) as [b|] eqn:Hb; [|reflexivity].
    rewrite (Hc Hst b eq_refl), Hnf. reflexivity.
  - rewrite Hnf. reflexivity.
Qed.

Lemma other_answers_keep_polling_witness :
  let p := run [SetPending (Some 42)] initial in
  let r := Returns {| status := "pending"; background := None |} in
  step p (Settle 0 r) =
    {| mounted := true; pendingBackgroundId := Some 42;
       interval := Some 42; inflight := []; toasts := [] |}.
Proof.
  apply (other_answers_keep_polling (run [SetPending (Some 42)] initial)
           0 42 (Returns {| status := "pending"; background := None |})).
  - reflexivity.
  - intros response [= <-]. split; [discriminate|]. discriminate.
Defined.

(** "confirmed" without a blockchain id is not final: nothing is
    published and the interval stays. *)
Example confirmed_without_id_keeps_polling :
  let p := run [SetPending (Some 42)] initial in
  let r := {| status := "confirmed";
              background := Some {| blockchainId := None;
                                    transactionHash := Some "0x5e1f" |} |} in
  let q := step p (Settle 0 (Returns r)) in
  toasts q = [] /\ interval q = Some 42 /\ pendingBackgroundId q = Some 42.
Proof. cbv zeta. repeat apply conj; reflexivity. Qed.

Lemma step_unmounted (p : Page) (e : event) :
  mounted p = false -> interval p = None ->
  mounted (step p e) = false /\ interval (step p e) = None /\
  pendingBackgroundId (step p e) = pendingBackgroundId p /\
  (length (inflight (step p e)) <= length (inflight p))%nat.
Proof.
  intros Hm Hi.
  assert (Hset : forall v q, mounted q = false ->
                             setPendingBackgroundId v q = q)
    by (intros v q Hq; unfold setPendingBackgroundId; rewrite Hq; reflexivity).
  destruct e as [v| |i r|]; simpl.
  - rewrite Hset by exact Hm. auto.
  - unfold tick. rewrite Hi. auto.
  - unfold settle. destruct (inflight p !! i) as [id|] eqn:Hin; [|auto].
    assert (Hlen : (length (delete i (inflight p)) <= length (inflight p))%nat)
      by (rewrite length_delete by eauto; lia).
    unfold checkBackgroundStatus_resume.
    destruct r as [response|e]; [|simpl; auto].
    destruct (confirmed response) as [[|]|e]; [| |simpl; auto].
    + destruct (background response); [|simpl; auto].
      rewrite Hset by exact Hm. simpl. auto.
    + destruct (String.eqb _ _); [|simpl; auto].
      rewrite Hset by exact Hm. simpl. auto.
  - unfold unmount, cleanup. simpl. auto.
Qed.

(** Once the page is unmounted nothing starts again, whatever events
    follow: the interval stays cleared, the pending id is not touched, and
    no new check is issued (the checks in flight can only settle). *)
Theorem unmounted_page_issues_no_check (p : Page) (es : list event) :
  let q := run es (unmount p) in
  mounted q = false /\ interval q = None /\
  pendingBackgroundId q = pendingBackgroundId p /\
  (length (inflight q) <= length (inflight p))%nat.
Proof.
  cbv zeta.
  assert (H : forall es p0, mounted p0 = false -> interval p0 = None ->
            mounted (run es p0) = false /\ interval (run es p0) = None /\
            pendingBackgroundId (run es p0) = pendingBackgroundId p0 /\
            (length (inflight (run es p0)) <= length (inflight p0))%nat).
  { clear. induction es as [|e es IH]; intros p0 Hm Hi; simpl; [auto|].
    destruct (step_unmounted p0 e Hm Hi) as (Hm' & Hi' & Hp' & Hl').
    destruct (IH (step p0 e) Hm' Hi') as (Hm2 & Hi2 & Hp2 & Hl2).
    rewrite Hp2, Hp'. repeat split; auto. lia. }
  apply (H es (unmount p)); reflexivity.
Qed.

End CreateBackgroundProps.

(** ** The base URL *)

Module ConfigProps.

Import Js Config.

Lemma append_assoc (u v r : string) : (u +:+ v) +:+ r = u +:+ (v +:+ r).
Proof.
  induction u as [|x u IH]; [reflexivity|].
  change (String x ((u +:+ v) +:+ r) = String x (u +:+ (v +:+ r))).
  f_equal. exact IH.
Qed.

Lemma endsWith_snoc (c : ascii) (u : string) :
  endsWith c (u +:+ String c EmptyString) = true.
Proof.
  induction u as [|x u IH]; [apply Ascii.eqb_refl|].
  destruct u as [|y u]; exact IH.
Qed.

Lemma slice_snoc (c : ascii) (u : string) :
  slice_0_m1 (u +:+ String c EmptyString) = u.
Proof.
  induction u as [|x u IH]; [reflexivity|].
  destruct u as [|y u]; [reflexivity|].
  change (String x (slice_0_m1 (String y u +:+ String c EmptyString)) =
          String x (String y u)).
  f_equal. exact IH.
Qed.

Lemma endsWith_inv (c : ascii) (s : string) :
  endsWith c s = true -> s = slice_0_m1 s +:+ String c EmptyString.
Proof.
  induction s as [|x s IH]; [discriminate|].
  intros H. destruct s as [|y s].
  - simpl in H. apply Ascii.eqb_eq in H. subst x. reflexivity.
  - change (String x (String y s) =
            String x (slice_0_m1 (String y s) +:+ String c EmptyString)).
    f_equal. apply IH. exact H.
Qed.

(** In development the base URL is empty (requests go through the proxy).
    Otherwise it is the configured URL, or the default when none is
    configured or it is empty, without one trailing slash: a URL that ends
    in a single slash loses it, a URL without one is kept, and the result
    still ends in a slash exactly when the URL ended in two. *)
Theorem base_url_loses_one_trailing_slash (env : Env) :
  (MODE env = "development" -> getApiBaseUrl env = "") /\
  (MODE env <> "development" ->
   let url := or_else (VITE_API_URL env) default_url in
   (truthy (VITE_API_URL env) = false -> getApiBaseUrl env = default_url) /\
   (forall u, url = u +:+ "/" -> getApiBaseUrl env = u) /\
   (endsWith "/" url = false -> getApiBaseUrl env = url) /\
   (endsWith "/" (getApiBaseUrl env) = true <-> exists u, url = u +:+ "//")).
Proof.
  unfold getApiBaseUrl. split.
  - intros ->. reflexivity.
  - intros Hmode. apply String.eqb_neq in Hmode. rewrite Hmode. cbv zeta.
    set (url := or_else (VITE_API_URL env) default_url).
    split; [|split; [|split]].
    + intros Hunset. subst url.
      destruct (VITE_API_URL env) as [v|]; simpl in *; [|reflexivity].
      destruct (String.eqb v ""); [reflexivity | discriminate].
    + intros u ->.
      rewrite (endsWith_snoc "/" u). apply (slice_snoc "/" u).
    + intros ->. reflexivity.
    + destruct (endsWith "/" url) eqn:Hend.
      * pose proof (endsWith_inv _ _ Hend) as Hurl. split.
        -- intros Hend2. pose proof (endsWith_inv _ _ Hend2) as Hbase.
           exists (slice_0_m1 (slice_0_m1 url)).
           rewrite Hurl at 1. rewrite Hbase at 1.
           rewrite append_assoc. reflexivity.
        -- intros [u Hu].
           replace (u +:+ "//") with ((u +:+ "/") +:+ "/") in Hu
             by (rewrite append_assoc; reflexivity).
           rewrite Hu, (slice_snoc "/" (u +:+ "/")).
           apply (endsWith_snoc "/" u).
      * split; [congruence|].
        intros [u Hu].
        replace (u +:+ "//") with ((u +:+ "/") +:+ "/") in Hu
          by (rewrite append_assoc; reflexivity).
        rewrite Hu, (endsWith_snoc "/" (u +:+ "/")) in Hend. discriminate.
Qed.

Example base_url_examples :
  getApiBaseUrl {| MODE := "production";
                   VITE_API_URL := Some "https://api.example.org/" |}
    = "https://api.example.org" /\
  getApiBaseUrl {| MODE := "production";
                   VITE_API_URL := Some "https://api.example.org//" |}
    = "https://api.example.org/" /\
  getApiBaseUrl {| MODE := "production"; VITE_API_URL := None |}
    = "https://api.evrlink.com" /\
  getApiBaseUrl {| MODE := "production"; VITE_API_URL := Some "/" |} = "" /\
  getApiBaseUrl {| MODE := "development";
                   VITE_API_URL := Some "https://api.example.org" |} = "".
Proof. repeat apply conj; reflexivity. Qed.

End ConfigProps.

(** ** The current user, backgrounds and gift cards *)

Module EndpointsProps.

Import Js Endpoints.

Section Calls.

Context {Store : Type} `{!Api.Storage Store} {N Json : Type}.
Variable srv : Api.Server N Json.
Variable backend : Backend N Json.
Variable emitBackgroundUpdated : MintData Json -> completion unit.

Implicit Types (w : Api.World Store N) (s : State Store N)
               (l : list request).

Lemma lift_getAuthHeaders w l :
  lift Api.getAuthHeaders {| core := w; sent := l |} =
  (Returns (Api.auth_headers (Api.storage w)), {| core := w; sent := l |}).
Proof. unfold lift. simpl. rewrite ApiSpec.getAuthHeaders_run. reflexivity. Qed.

Lemma lift_getToken w l :
  lift Api.getToken {| core := w; sent := l |} =
  (Returns (if truthy (Api.getItem "token" (Api.storage w))
            then Api.getItem "token" (Api.storage w) else None),
   {| core := w; sent := l |}).
Proof.
  unfold lift, Api.getToken, Api.try_catch, Api.bind,
    Api.localStorage_getItem, Api.ret. simpl.
  destruct (truthy _); reflexivity.
Qed.

(** *** [getCurrentUser] *)

(** [getCurrentUser] never throws and never repairs the session: it sends
    the test request, with the headers built from the store, and nothing
    else (no login, also after a 401), writes nothing to the store, and
    answers [null] for every rejected request. *)
Theorem current_user_is_one_request w :
  (exists result, fst (getCurrentUser srv w) = Returns result) /\
  Api.requests (snd (getCurrentUser srv w)) =
    Api.requests w ++ [Api.GetMe (Api.auth_headers (Api.storage w))] /\
  Api.storage (snd (getCurrentUser srv w)) = Api.storage w /\
  (forall e,
     fst (Api.get_me srv (Api.auth_headers (Api.storage w)) (Api.remote w))
       = Api.Rejected e ->
     fst (getCurrentUser srv w) = Returns None).
Proof.
  unfold getCurrentUser, Api.try_catch, Api.bind.
  rewrite ApiSpec.getAuthHeaders_run.
  unfold Api.axios, Api.ret, Api.throw.
  destruct (Api.get_me srv _ _) as [[[d|]|e] n']; simpl;
    repeat split; eauto; discriminate.
Qed.

(** *** [mintBackgroundNFT] *)

(** Without a stored token, or without a stored wallet address, a mint
    sends nothing and throws "Failed to mint background NFT": the more
    specific errors it raises for the two cases are raised inside its own
    [try] block, and its [catch] replaces them. *)
Theorem mint_without_session_sends_nothing image category price s :
  truthy (Api.getItem "token" (Api.storage (core s))) = false \/
  truthy (Api.getItem "walletAddress" (Api.storage (core s))) = false ->
  mintBackgroundNFT backend emitBackgroundUpdated image category price s =
    (Throws (new_Error "Failed to mint background NFT"), s).
Proof.
  destruct s as [w l]. simpl. intros Hmissing.
  unfold mintBackgroundNFT, try_catch, bind at 1.
  rewrite lift_getToken.
  destruct (truthy (Api.getItem "token" (Api.storage w))) eqn:Ht; simpl.
  - destruct Hmissing as [Hf | Hf]; [discriminate|].
    rewrite Ht. simpl.
    unfold bind, lift, Api.localStorage_getItem, throw. simpl.
    destruct (Api.getItem "walletAddress" (Api.storage w)) as [a|];
      simpl in *; [|reflexivity].
    rewrite Hf. reflexivity.
  - reflexivity.
Qed.

(** The error a mint throws for what its [try] block threw. *)
Local Abbreviation mint_error e :=
  (new_Error
     (if Api.is_401 e then "Authentication failed - please login again"
      else if truthy (Api.response_error e)
           then or_else (Api.response_error e) ""
           else "Failed to mint background NFT")).

(** A mint with a stored session, by the answer of the backend. *)
Lemma mint_with_session image category price w l (t a : string) :
  Api.getItem "token" (Api.storage w) = Some t -> t <> "" ->
  Api.getItem "walletAddress" (Api.storage w) = Some a -> a <> "" ->
  mintBackgroundNFT backend emitBackgroundUpdated image category price
    {| core := w; sent := l |} =
  let h := multipart (Api.auth_headers (Api.storage w)) in
  let answer := post_mint backend image category price a h (Api.remote w) in
  let s' := {| core := {| Api.storage := Api.storage w;
                          Api.remote := snd answer;
                          Api.clock := Api.clock w;
                          Api.requests := Api.requests w |};
               sent := l ++ [PostMint image category price a h] |} in
  match fst answer with
  | Api.Rejected e => (Throws (mint_error e), s')
  | Api.Resolved None => (Returns None, s')
  | Api.Resolved (Some d) =>
      if mint_success d then
        match emitBackgroundUpdated d with
        | Returns _ => (Returns (Some d), s')
        | Throws e => (Throws (mint_error e), s')
        end
      else (Returns (Some d), s')
  end.
Proof.
  intros Ht Htne Ha Hane.
  assert (Herr : forall (e : Error) s0,
    (if Api.is_401 e
     then throw (new_Error "Authentication failed - please login again")
     else match Api.response_error e with
          | Some msg =>
              if truthy (Some msg) then throw (new_Error msg)
              else throw (new_Error "Failed to mint background NFT")
          | None => throw (new_Error "Failed to mint background NFT")
          end) s0 = (Throws (mint_error e) : completion (option (MintData Json)), s0)).
  { intros e s0. destruct (Api.is_401 e); [reflexivity|].
    destruct (Api.response_error e) as [m|]; simpl; [|reflexivity].
    destruct (String.eqb m ""); reflexivity. }
  unfold mintBackgroundNFT, try_catch, bind at 1.
  rewrite lift_getToken, Ht. simpl.
  rewrite (ApiSpec.truthy_nonempty t Htne). simpl.
  rewrite (ApiSpec.truthy_nonempty t Htne). simpl.
  unfold bind at 1. unfold lift at 1, Api.localStorage_getItem. simpl.
  rewrite Ha. simpl. rewrite (ApiSpec.truthy_nonempty a Hane). simpl.
  unfold bind at 1. rewrite lift_getAuthHeaders.
  unfold bind at 1. unfold axios. simpl.
  destruct (post_mint backend _ _ _ _ _ _) as [[[d|]|e] n']; simpl.
  - unfold bind, of_completion, ret.
    destruct (mint_success d); [|reflexivity].
    destruct (emitBackgroundUpdated d) as [[]|e]; [reflexivity|].
    apply Herr.
  - reflexivity.
  - apply Herr.
Qed.

(** A rejected mint throws, after one request that names the stored
    wallet address as the artist and carries the stored token.  The
    message is "Authentication failed - please login again" for a 401,
    otherwise the backend's [error] text when there is one, otherwise
    "Failed to mint background NFT".  Nothing is written to the store and
    no login is attempted. *)
Theorem mint_rejection_is_classified image category price s
    (t a : string) (e : Error) :
  Api.getItem "token" (Api.storage (core s)) = Some t -> t <> "" ->
  Api.getItem "walletAddress" (Api.storage (core s)) = Some a -> a <> "" ->
  let h := multipart (Api.auth_headers (Api.storage (core s))) in
  fst (post_mint backend image category price a h (Api.remote (core s)))
    = Api.Rejected e ->
  let r := mintBackgroundNFT backend emitBackgroundUpdated
             image category price s in
  fst r = Throws (new_Error
            (if Api.is_401 e then "Authentication failed - please login again"
             else if truthy (Api.response_error e)
                  then or_else (Api.response_error e) ""
                  else "Failed to mint background NFT")) /\
  sent (snd r) = sent s ++ [PostMint image category price a h] /\
  h !! "Content-Type" = Some "multipart/form-data" /\
  h !! "Authorization" = Some ("Bearer " +:+ t) /\
  Api.storage (core (snd r)) = Api.storage (core s) /\
  Api.requests (core (snd r)) = Api.requests (core s).
Proof.
  destruct s as [w l]. simpl. intros Ht Htne Ha Hane Hans.
  rewrite (mint_with_session image category price w l t a Ht Htne Ha Hane).
  cbv zeta. rewrite Hans. simpl.
  repeat split.
  - apply lookup_insert_eq.
  - unfold multipart, Api.auth_headers. rewrite Ht. simpl.
    rewrite (ApiSpec.truthy_nonempty t Htne). simpl.
    rewrite lookup_insert_ne by discriminate. apply lookup_insert_eq.
Qed.

(** An accepted mint returns the body of the answer as it came, provided
    the emit on the event bus returns (or the body does not report
    success, in which case nothing is emitted). *)
Theorem accepted_mint_returns_the_body image category price s
    (t a : string) (body : option (MintData Json)) :
  Api.getItem "token" (Api.storage (core s)) = Some t -> t <> "" ->
  Api.getItem "walletAddress" (Api.storage (core s)) = Some a -> a <> "" ->
  let h := multipart (Api.auth_headers (Api.storage (core s))) in
  fst (post_mint backend image category price a h (Api.remote (core s)))
    = Api.Resolved body ->
  (forall d, body = Some d -> mint_success d = true ->
             emitBackgroundUpdated d = Returns tt) ->
  let r := mintBackgroundNFT backend emitBackgroundUpdated
             image category price s in
  fst r = Returns body /\
  sent (snd r) = sent s ++ [PostMint image category price a h].
Proof.
  destruct s as [w l]. simpl. intros Ht Htne Ha Hane Hans Hemit.
  rewrite (mint_with_session image category price w l t a Ht Htne Ha Hane).
  cbv zeta. rewrite Hans.
  destruct body as [d|]; [|auto].
  destruct (mint_success d) eqn:Hd; [|auto].
  rewrite (Hemit d eq_refl Hd). auto.
Qed.

(** The emit is inside the [try] block: when a listener on the event bus
    throws, a mint the backend has accepted and reported as successful
    ends in the [catch] and throws like a failed request. *)
Theorem mint_fails_when_the_emit_throws image category price s
    (t a : string) (d : MintData Json) (e : Error) :
  Api.getItem "token" (Api.storage (core s)) = Some t -> t <> "" ->
  Api.getItem "walletAddress" (Api.storage (core s)) = Some a -> a <> "" ->
  let h := multipart (Api.auth_headers (Api.storage (core s))) in
  fst (post_mint backend image category price a h (Api.remote (core s)))
    = Api.Resolved (Some d) ->
  mint_success d = true ->
  emitBackgroundUpdated d = Throws e ->
  Js.response e = None ->
  let r := mintBackgroundNFT backend emitBackgroundUpdated
             image category price s in
  fst r = Throws (new_Error "Failed to mint background NFT") /\
  sent (snd r) = sent s ++ [PostMint image category price a h].
Proof.
  destruct s as [w l]. simpl. intros Ht Htne Ha Hane Hans Hd Hemit Hplain.
  rewrite (mint_with_session image category price w l t a Ht Htne Ha Hane).
  cbv zeta. rewrite Hans, Hd, Hemit.
  unfold Api.is_401, Api.response_error. rewrite Hplain. auto.
Qed.

(** *** [verifyBackgroundStatus] and the polling page *)

(** A status request is one request carrying the headers built from the
    store.  Accepted, the body is returned as it came; rejected, for
    whatever reason, the error thrown is "Failed to verify background
    status".  A page whose check ends this way stays as it is and goes on
    polling. *)
Theorem status_request_failure_keeps_polling backgroundId s :
  let h := Api.auth_headers (Api.storage (core s)) in
  let answer := fst (get_verify backend backgroundId h (Api.remote (core s))) in
  let r := verifyBackgroundStatus backend backgroundId s in
  sent (snd r) = sent s ++ [GetVerify backgroundId h] /\
  Api.storage (core (snd r)) = Api.storage (core s) /\
  (forall body, answer = Api.Resolved body -> fst r = Returns body) /\
  (forall e, answer = Api.Rejected e ->
     fst r = Throws (new_Error "Failed to verify background status") /\
     forall (p : CreateBackground.Page) (i : nat) (id : Z),
       CreateBackground.inflight p !! i = Some id ->
       CreateBackground.step p
         (CreateBackground.Settle i (status_answer (fst r))) =
       {| CreateBackground.mounted := CreateBackground.mounted p;
          CreateBackground.pendingBackgroundId :=
            CreateBackground.pendingBackgroundId p;
          CreateBackground.interval := CreateBackground.interval p;
          CreateBackground.inflight :=
            delete i (CreateBackground.inflight p);
          CreateBackground.toasts := CreateBackground.toasts p |}).
Proof.
  destruct s as [w l]. cbv zeta. simpl.
  unfold verifyBackgroundStatus, try_catch, bind.
  rewrite lift_getAuthHeaders. unfold axios, throw. simpl.
  destruct (get_verify backend _ _ _) as [[body|e] n']; simpl.
  - repeat split; auto; try discriminate. intros b [= <-]. reflexivity.
  - repeat split; auto; try discriminate.
    intros p i id Hin. unfold CreateBackground.settle. rewrite Hin.
    reflexivity.
Qed.

(** *** [createGiftCard], [setGiftCardSecret] *)

(** Creating a gift card and setting its secret never throw.  Each sends
    one request whose [Authorization] header is built from the stored
    token without a test, so that it reads "Bearer null" when no token is
    stored.  An accepted request gives [success] with the body; a rejected
    one gives the backend's [error] text, or a fixed text when the
    rejection has none. *)
Theorem gift_card_writes_never_throw (x y z : string) s :
  let tok := Api.getItem "token" (Api.storage (core s)) in
  let h := bearer_of_stored tok in
  let rc := createGiftCard backend x y z s in
  let rs := setGiftCardSecret backend x y s in
  (tok = None -> h !! "Authorization" = Some "Bearer null") /\
  (sent (snd rc) = sent s ++ [PostCreateGiftCard x y z h] /\
   match fst (post_create backend x y z h (Api.remote (core s))) with
   | Api.Resolved body =>
       fst rc = Returns {| Api.success := true; Api.data := body;
                           Api.error := None |}
   | Api.Rejected e =>
       fst rc = Returns {| Api.success := false; Api.data := None;
                           Api.error :=
                             Some (or_else (Api.response_error e)
                                           "Failed to create gift card") |}
   end) /\
  (sent (snd rs) = sent s ++ [PostSetSecret x y h] /\
   match fst (post_set_secret backend x y h (Api.remote (core s))) with
   | Api.Resolved body =>
       fst rs = Returns {| Api.success := true; Api.data := body;
                           Api.error := None |}
   | Api.Rejected e =>
       fst rs = Returns {| Api.success := false; Api.data := None;
                           Api.error :=
                             Some (or_else (Api.response_error e)
                                           "Failed to set gift card secret") |}
   end).
Proof.
  destruct s as [w l]. cbv zeta. simpl.
  split; [intros ->; reflexivity|].
  unfold createGiftCard, setGiftCardSecret. open_calls.
  unfold Api.localStorage_getItem. simpl.
  split.
  - destruct (post_create backend _ _ _ _ _) as [[body|e] n']; simpl; auto.
  - destruct (post_set_secret backend _ _ _ _) as [[body|e] n']; simpl; auto.
Qed.

End Calls.

#[local] Existing Instance Api.gmap_storage.

(** A wallet address is stored, a token is not. *)
Lemma mint_without_session_sends_nothing_witness :
  let backend := Scenarios.backend Scenarios.unreachable Scenarios.unreachable
                   Scenarios.unreachable Scenarios.unreachable in
  let s := Scenarios.state_with {[ "walletAddress" := "0xAbC" ]} in
  mintBackgroundNFT backend Scenarios.quiet_bus "sky.png" "Birthday Cards"
    "0.01" s =
    (Throws (new_Error "Failed to mint background NFT"), s).
Proof.
  intros backend s.
  apply (mint_without_session_sends_nothing backend Scenarios.quiet_bus
           "sky.png" "Birthday Cards" "0.01" s).
  left. reflexivity.
Defined.

(** The backend rejects the mint with 400 and an explanation. *)
Lemma mint_rejection_is_classified_witness :
  let rejection := Scenarios.http_error 400 "price must be positive" in
  let backend := Scenarios.backend (Api.Rejected rejection)
                   Scenarios.unreachable Scenarios.unreachable
                   Scenarios.unreachable in
  let s := Scenarios.state_with (Scenarios.session "tok" "0xAbC") in
  let r := mintBackgroundNFT backend Scenarios.quiet_bus "sky.png"
             "Birthday Cards" "-1" s in
  fst r = Throws (new_Error "price must be positive") /\
  sent (snd r) =
    [PostMint "sky.png" "Birthday Cards" "-1" "0xAbC"
       (multipart (Api.auth_headers (Scenarios.session "tok" "0xAbC")))].
Proof.
  intros rejection backend s r.
  destruct (mint_rejection_is_classified backend Scenarios.quiet_bus
              "sky.png" "Birthday Cards" "-1" s "tok" "0xAbC" rejection)
    as (Hthrown & Hsent & _); try reflexivity; try discriminate.
  split; [exact Hthrown | exact Hsent].
Defined.

Example mint_rejected_with_401 :
  let backend := Scenarios.backend
                   (Api.Rejected (Scenarios.http_error 401 "jwt expired"))
                   Scenarios.unreachable Scenarios.unreachable
                   Scenarios.unreachable in
  fst (mintBackgroundNFT backend Scenarios.quiet_bus "sky.png"
         "Birthday Cards" "0.01"
         (Scenarios.state_with (Scenarios.session "tok" "0xAbC")))
  = Throws (new_Error "Authentication failed - please login again").
Proof. reflexivity. Qed.

Lemma accepted_mint_returns_the_body_witness :
  let d := {| mint_success := true; mint_body := "{id: 7}" |} in
  let backend := Scenarios.backend (Api.Resolved (Some d))
                   Scenarios.unreachable Scenarios.unreachable
                   Scenarios.unreachable in
  let s := Scenarios.state_with (Scenarios.session "tok" "0xAbC") in
  let r := mintBackgroundNFT backend Scenarios.quiet_bus "sky.png"
             "Birthday Cards" "0.01" s in
  fst r = Returns (Some d) /\
  sent (snd r) =
    sent s ++
    [PostMint "sky.png" "Birthday Cards" "0.01" "0xAbC"
       (multipart (Api.auth_headers (Scenarios.session "tok" "0xAbC")))].
Proof.
  intros d backend s r.
  apply (accepted_mint_returns_the_body backend Scenarios.quiet_bus
           "sky.png" "Birthday Cards" "0.01" s "tok" "0xAbC" (Some d));
    try reflexivity; discriminate.
Defined.

Lemma mint_fails_when_the_emit_throws_witness :
  let d := {| mint_success := true; mint_body := "{id: 7}" |} in
  let backend := Scenarios.backend (Api.Resolved (Some d))
                   Scenarios.unreachable Scenarios.unreachable
                   Scenarios.unreachable in
  let s := Scenarios.state_with (Scenarios.session "tok" "0xAbC") in
  let r := mintBackgroundNFT backend Scenarios.failing_bus "sky.png"
             "Birthday Cards" "0.01" s in
  fst r = Throws (new_Error "Failed to mint background NFT") /\
  sent (snd r) =
    sent s ++
    [PostMint "sky.png" "Birthday Cards" "0.01" "0xAbC"
       (multipart (Api.auth_headers (Scenarios.session "tok" "0xAbC")))].
Proof.
  intros d backend s r.
  apply (mint_fails_when_the_emit_throws backend Scenarios.failing_bus
           "sky.png" "Birthday Cards" "0.01" s "tok" "0xAbC" d Scenarios.boom);
    try reflexivity; discriminate.
Defined.

(** With no token stored, the header of a gift-card creation is spelled
    out, where [getAuthHeaders] would have left it out. *)
Example create_gift_card_without_token :
  let backend := Scenarios.backend Scenarios.unreachable Scenarios.unreachable
                   (Api.Resolved (Some "{id: 3}")) Scenarios.unreachable in
  let r := createGiftCard backend "7" "0.01" "hello" (Scenarios.state_with ∅) in
  sent (snd r) =
    [PostCreateGiftCard "7" "0.01" "hello"
       {[ "Authorization" := "Bearer null" ]}] /\
  fst r = Returns {| Api.success := true; Api.data := Some "{id: 3}";
                     Api.error := None |}.
Proof. split; reflexivity. Qed.

End EndpointsProps.
